(** * Book scraper: extraction, crawl loop and CSV output

    A shallow embedding of [book_scraper.py] (class [BookScraper]) and the
    properties of its extractor, its pagination loop and its CSV writer.

    Conventions of the embedding.

    - A Python [str] is a [string] whose characters are code points below
      256, one [ascii] per code point.  The pound sign of the price cell is
      the single character 163.
    - A parsed page is a tree of [element]s, as BeautifulSoup builds it:
      text nodes and tags with a name, single-valued attributes, the tokens
      of the [class] attribute, and children.
    - A scraped book is the Python dict the code fills in: a finite map from
      column names to [value]s.
    - What the code obtains from outside the repository is a parameter of
      the development: [urljoin] (urllib.parse), [float] and the text of a
      float (the builtin), the answers of the network and of the file
      system.  A fetch that fails, for whatever reason, is [None], as
      [get_page] turns every exception into [None].  [urljoin] can raise,
      as it does on an address it cannot split; the handlers of the code
      that catch its exception are part of the embedding.
    - The network is not assumed to answer the same request the same way
      twice: its answer depends on the number of requests issued so far,
      which the crawl carries along.
    - Log messages have no bearing on the values computed and are left
      out. *)

From Stdlib Require Import ZArith Lia Ascii String List.
From stdpp Require Import base option list strings gmap pretty.

Local Open Scope string_scope.
Local Set Warnings "-register-all".

(** ** Python string methods used by the scraper *)

Module PyStr.

(** [str.isspace] on one code point below 256: the characters that
    [str.strip()] removes. *)
Definition isspace (c : ascii) : bool :=
  let n := nat_of_ascii c in
  (((9 <=? n) && (n <=? 13)) || ((28 <=? n) && (n <=? 32))
   || (n =? 133) || (n =? 160))%nat.

Fixpoint lstrip (s : string) : string :=
  match s with
  | String c s' => if isspace c then lstrip s' else s
  | EmptyString => EmptyString
  end.

Fixpoint rstrip (s : string) : string :=
  match s with
  | String c s' =>
      match rstrip s' with
      | EmptyString => if isspace c then EmptyString else String c EmptyString
      | r => String c r
      end
  | EmptyString => EmptyString
  end.

(** [s.strip()] *)
Definition strip (s : string) : string := rstrip (lstrip s).

(** [str.lower] on one code point below 256: A-Z and the accented
    capitals 192-222 (the multiplication sign 215 apart) move up by 32. *)
Definition lower_char (c : ascii) : ascii :=
  let n := nat_of_ascii c in
  if (((65 <=? n) && (n <=? 90))
      || ((192 <=? n) && (n <=? 222) && negb (n =? 215)))%nat
  then ascii_of_nat (n + 32) else c.

(** [s.lower()] *)
Fixpoint lower (s : string) : string :=
  match s with
  | String c s' => String (lower_char c) (lower s')
  | EmptyString => EmptyString
  end.

(** [s.startswith(p)] *)
Fixpoint startswith (p s : string) : bool :=
  match p, s with
  | EmptyString, _ => true
  | String a p', String b s' => if Ascii.eqb a b then startswith p' s' else false
  | String _ _, EmptyString => false
  end.

(** [sub in s] *)
Fixpoint contains (sub s : string) : bool :=
  startswith sub s ||
  match s with
  | String _ s' => contains sub s'
  | EmptyString => false
  end.

(** [s.replace(old, new)] for a pattern [old] of one character. *)
Fixpoint replace_char (old : ascii) (new s : string) : string :=
  match s with
  | String c s' =>
      if Ascii.eqb c old then new ++ replace_char old new s'
      else String c (replace_char old new s')
  | EmptyString => EmptyString
  end.

(** [sep.join(l)] *)
Fixpoint join (sep : string) (l : list string) : string :=
  match l with
  | [] => EmptyString
  | [x] => x
  | x :: r => x ++ sep ++ join sep r
  end.

(** The pound sign, code point 163. *)
Definition pound : ascii := ascii_of_nat 163.

Definition CR : ascii := ascii_of_nat 13.
Definition LF : ascii := ascii_of_nat 10.
Definition CRLF : string := String CR (String LF EmptyString).

End PyStr.

(** ** The parse tree, as the scraper queries it *)

Module bs4.

(** A node of the tree: a text node or a tag.  [classes] holds the tokens
    of the multi-valued [class] attribute (empty when the tag has none),
    [attrs] the other attributes. *)
Inductive element : Type :=
| NavigableString (text : string)
| Tag (name : string) (attrs : list (string * string))
      (classes : list string) (contents : list element).

(** All nodes below [e], in document order. *)
Fixpoint descendants (e : element) : list element :=
  match e with
  | NavigableString _ => []
  | Tag _ _ _ contents =>
      (fix below (l : list element) : list element :=
         match l with
         | [] => []
         | c :: r => c :: descendants c ++ below r
         end) contents
  end.

(** Does [e] match a search for tag [name], with [class_] when given? *)
Definition matches (name : string) (class_ : option string) (e : element) : bool :=
  match e with
  | NavigableString _ => false
  | Tag n _ classes _ =>
      String.eqb n name &&
      match class_ with
      | Some c => existsb (String.eqb c) classes
      | None => true
      end
  end.

(** [e.find_all(name, class_=...)] *)
Definition find_all (name : string) (class_ : option string) (e : element)
  : list element :=
  List.filter (matches name class_) (descendants e).

(** [e.find(name, class_=...)]: the first match, or [None]. *)
Definition find (name : string) (class_ : option string) (e : element)
  : option element :=
  head (find_all name class_ e).

(** [e.get(key, default)] for a single-valued attribute. *)
Definition get (e : element) (key default : string) : string :=
  match e with
  | Tag _ attrs _ _ =>
      match List.find (fun kv => String.eqb (fst kv) key) attrs with
      | Some kv => snd kv
      | None => default
      end
  | NavigableString _ => default
  end.

(** [e.get('class', [])] *)
Definition get_class (e : element) : list string :=
  match e with
  | Tag _ _ classes _ => classes
  | NavigableString _ => []
  end.

(** [e.get_text()]: the text nodes below [e], concatenated. *)
Definition get_text (e : element) : string :=
  match e with
  | NavigableString s => s
  | Tag _ _ _ _ =>
      fold_right
        (fun d acc => match d with
                      | NavigableString s => s ++ acc
                      | Tag _ _ _ _ => acc
                      end)
        EmptyString (descendants e)
  end.

End bs4.

Import PyStr bs4.

(** ** extract_rating *)

(** The [rating_map] dict, in its insertion order, which is the order the
    [for] loop visits it in. *)
Definition rating_map : list (string * Z) :=
  [("One", 1%Z); ("Two", 2%Z); ("Three", 3%Z); ("Four", 4%Z); ("Five", 5%Z)].

(** [for word, rating in rating_map.items(): if word in rating_class: return rating] *)
Fixpoint first_rating (items : list (string * Z)) (rating_class : string)
  : option Z :=
  match items with
  | (word, rating) :: rest =>
      if contains word rating_class then Some rating
      else first_rating rest rating_class
  | [] => None
  end.

Definition extract_rating (rating_class : string) : option Z :=
  first_rating rating_map rating_class.


(** ** The csv writer, as [save_to_csv] drives it

    [csv.DictWriter] with the default dialect: comma delimiter, double-quote
    quote character, minimal quoting, doubled quotes inside a quoted field,
    carriage return and line feed after each row. *)

Module csv.

Definition quotechar : ascii := ascii_of_nat 34.
Definition delimiter : ascii := ascii_of_nat 44.

(** A character that forces its field to be quoted. *)
Definition special (c : ascii) : bool :=
  Ascii.eqb c delimiter || Ascii.eqb c quotechar
  || Ascii.eqb c CR || Ascii.eqb c LF.

Fixpoint needs_quotes (s : string) : bool :=
  match s with
  | String c s' => special c || needs_quotes s'
  | EmptyString => false
  end.

(** One field as it is written: quoted when it holds a special character. *)
Definition field (s : string) : string :=
  if needs_quotes s
  then String quotechar
         (replace_char quotechar (String quotechar (String quotechar EmptyString)) s
          ++ String quotechar EmptyString)
  else s.

(** [writer.writerow(fields)]: the text appended to the file. *)
Definition writerow (fields : list string) : string :=
  join (String delimiter EmptyString) (List.map field fields) ++ CRLF.

End csv.

(** Number of line feeds in a file: its number of lines, every line of the
    file being closed by one. *)
Fixpoint count_lines (content : string) : nat :=
  match content with
  | String c s' => (if Ascii.eqb c LF then 1 else 0) + count_lines s'
  | EmptyString => 0
  end.

(** Does the text hold a line feed? *)
Fixpoint has_line_feed (s : string) : bool :=
  match s with
  | String c s' => Ascii.eqb c LF || has_line_feed s'
  | EmptyString => false
  end.

(** [fieldnames] of [save_to_csv]. *)
Definition fieldnames : list string :=
  ["Title"; "Price"; "Rating"; "Availability"; "URL"].

(** ** Scraped values

    The values a field of a scraped book takes: [None], a string, an
    integer, or a float of the type [float_t] that stands for Python's. *)
Inductive value (float_t : Type) : Type :=
| VNone
| VStr (s : string)
| VInt (n : Z)
| VFloat (x : float_t).

Arguments VNone {float_t}.
Arguments VStr {float_t} s.
Arguments VInt {float_t} n.
Arguments VFloat {float_t} x.

(** ** Exceptions

    The exceptions the code can meet, both of class [Exception], and the
    outcome of a call that may raise one. *)
Inductive exn : Type :=
| OSError
| ValueError.

Inductive result (A : Type) : Type :=
| Return (a : A)
| Raise (e : exn).

Arguments Return {A} a.
Arguments Raise {A} e.

(** ** Sample pages and stand-ins for the examples

    The examples run the scraper on a small catalogue of two pages.  The
    functions of the Python library that the development takes as
    parameters are replaced there by stand-ins that agree with them on the
    inputs of the examples. *)

(** Everything up to and including the last slash. *)
Fixpoint dirname (s : string) : string :=
  match s with
  | String c s' =>
      if contains "/" s' then String c (dirname s')
      else if Ascii.eqb c "/" then String c EmptyString
      else EmptyString
  | EmptyString => EmptyString
  end.

(** Stand-in for [urljoin]: what it returns when [base] is an http URL with
    a path and [url] is empty or a plain relative path (no scheme, no
    leading slash, no dot segment, no query or fragment). *)
Definition urljoin_plain (base url : string) : string :=
  match url with
  | EmptyString => base
  | _ => dirname base ++ url
  end.

(** Stand-in for [urljoin] with its exception: an address with an opening
    square bracket and no closing one, such as [http://[::1], is one that
    [urljoin] cannot split, and it raises [ValueError]. *)
Definition urljoin_checked (base url : string) : result string :=
  if contains "[" url && negb (contains "]" url) then Raise ValueError
  else Return (urljoin_plain base url).

Definition is_digit (c : ascii) : bool :=
  let n := nat_of_ascii c in ((48 <=? n) && (n <=? 57))%nat.

Fixpoint all_digits (s : string) : bool :=
  match s with
  | String c s' => is_digit c && all_digits s'
  | EmptyString => true
  end.

(** Digits, a point, digits: the shape of a price. *)
Fixpoint is_decimal_literal (s : string) : bool :=
  match s with
  | String c s' =>
      if is_digit c then
        match s' with
        | String "." (String d r) => is_digit d && all_digits r
        | _ => is_decimal_literal s'
        end
      else false
  | EmptyString => false
  end.

(** Stand-in for [float]: a float is known by the decimal literal it was
    read from, and prints as that literal; any other text is a
    [ValueError]. *)
Definition float_literal (s : string) : option string :=
  if is_decimal_literal s then Some s else None.

Definition start_url : string := "http://books.toscrape.com/".
Definition page_2_url : string := "http://books.toscrape.com/catalogue/page-2.html".

(** An item container as the catalogue writes it. *)
Definition item (href title rating price availability : string) : element :=
  Tag "article" [] ["product_pod"]
    [ Tag "p" [] ["star-rating"; rating] [];
      Tag "h3" [] []
        [ Tag "a" [("href", href); ("title", title)] []
            [NavigableString title] ];
      Tag "div" [] ["product_price"]
        [ Tag "p" [] ["price_color"] [NavigableString price];
          Tag "p" [] ["instock"; "availability"]
            [ Tag "i" [] ["icon-ok"] [];
              NavigableString availability ] ] ].

Definition attic_item : element :=
  item "catalogue/a-light-in-the-attic_1000/index.html" "A Light in the Attic"
       "Three" (String pound "51.77") "
    In stock
".

Definition wake_item : element :=
  item "in-her-wake_980/index.html" "In Her Wake"
       "One" (String pound "12.84") " In stock ".

(** An item whose link has no [title] attribute. *)
Definition untitled_item : element :=
  Tag "article" [] ["product_pod"]
    [ Tag "h3" [] []
        [ Tag "a" [("href", "catalogue/soumission_998/index.html")] []
            [NavigableString "Soumission"] ] ].

(** An item with no link under its heading. *)
Definition unlinked_item : element :=
  Tag "article" [] ["product_pod"]
    [ Tag "h3" [] [] [NavigableString "Sharp Objects"] ].

Definition pager (href : string) : element :=
  Tag "ul" [] ["pager"]
    [ Tag "li" [] ["next"] [ Tag "a" [("href", href)] [] [NavigableString "next"] ] ].

Definition page_1 : element :=
  Tag "[document]" [] []
    [ Tag "section" [] [] [attic_item]; pager "catalogue/page-2.html" ].

Definition page_2 : element :=
  Tag "[document]" [] [] [ Tag "section" [] [] [wake_item] ].

(** The catalogue: what a GET of each URL answers when it succeeds. *)
Definition site (url : string) : option element :=
  if String.eqb url start_url then Some page_1
  else if String.eqb url page_2_url then Some page_2
  else None.

(** A network that always answers. *)
Definition net_steady (n : nat) (url : string) : option element := site url.

(** A network whose first request fails and that answers from then on. *)
Definition net_flaky (n : nat) (url : string) : option element :=
  match n with
  | 0 => None
  | S _ => site url
  end.

(** A network that is down. *)
Definition net_down (n : nat) (url : string) : option element := None.

(** An item whose title runs over two lines. *)
Definition two_line_item : element :=
  item "catalogue/tales-of-the-city_997/index.html" "Tales of
the City" "Four" (String pound "22.65") " In stock ".

(** The books the sample items are scraped into, from the start URL. *)
Definition attic_book : gmap string (value string) :=
  <["URL" := VStr "http://books.toscrape.com/catalogue/a-light-in-the-attic_1000/index.html"]>
  (<["Availability" := VStr "In stock"]>
  (<["Rating" := VInt 3]>
  (<["Price" := VFloat "51.77"]>
  (<["Title" := VStr "A Light in the Attic"]> ∅)))).

Definition wake_book : gmap string (value string) :=
  <["URL" := VStr "http://books.toscrape.com/in-her-wake_980/index.html"]>
  (<["Availability" := VStr "In stock"]>
  (<["Rating" := VInt 1]>
  (<["Price" := VFloat "12.84"]>
  (<["Title" := VStr "In Her Wake"]> ∅)))).

Definition two_line_book : gmap string (value string) :=
  <["URL" := VStr "http://books.toscrape.com/catalogue/tales-of-the-city_997/index.html"]>
  (<["Availability" := VStr "In stock"]>
  (<["Rating" := VInt 4]>
  (<["Price" := VFloat "22.65"]>
  (<["Title" := VStr "Tales of
the City"]> ∅)))).

(** A dict with a key that is no column of the file. *)
Definition foreign_book : gmap string (value string) :=
  <["UPC" := VStr "a897fe39b1053632"]> attic_book.

(** A network that answers the first three requests only. *)
Definition net_drops (n : nat) (url : string) : option element :=
  if (n <? 3)%nat then site url else None.

(** A disk on which nothing fails, and one that is full once the header is
    written. *)
Definition disk_ok (i : nat) : bool := true.
Definition disk_full (i : nat) : bool := Nat.eqb i 0.
Definition any_file (filename : string) : bool := true.

(** [sub] occurs in [s], at some position. *)
Definition occurs (sub s : string) : Prop :=
  exists pre post : string, s = pre ++ sub ++ post.

(** As the specification words the rating match: a word matches a class
    string when it occurs in it, letter case set aside. *)
Definition word_matches_ignoring_case (word rating_class : string) : bool :=
  contains (lower word) (lower rating_class).

(** Is every character of [s] one that [strip] removes? *)
Fixpoint all_space (s : string) : bool :=
  match s with
  | String c s' => isspace c && all_space s'
  | EmptyString => true
  end.

(** A second page whose next link leads back to the page itself. *)
Definition page_2_again : element :=
  Tag "[document]" [] []
    [ Tag "section" [] [] [wake_item]; pager "page-2.html" ].

(** A network on which every request is answered with that page. *)
Definition net_looping (n : nat) (url : string) : option element :=
  Some page_2_again.

(** A network that always answers for the start page and never for any
    other address. *)
Definition net_half (n : nat) (url : string) : option element :=
  if String.eqb url start_url then Some page_1 else None.

(** A disk that takes the header and one row. *)
Definition disk_one_row (i : nat) : bool := (i <? 2)%nat.

(** A disk fault that leaves the first twenty characters in the file. *)
Definition cut_at_20 (text : string) : string := String.substring 0 20 text.

(** A network whose first request fails and that answers every later one
    with the second page, which has no next link. *)
Definition net_late (n : nat) (url : string) : option element :=
  match n with
  | 0 => None
  | S _ => Some page_2
  end.

(** An item whose price cell has white space around the price, and one
    whose link has an address that [urljoin] cannot split. *)
Definition padded_item : element :=
  item "catalogue/a-light-in-the-attic_1000/index.html" "A Light in the Attic"
       "Three" (" " ++ String pound "51.77" ++ "
    ") " In stock ".

Definition bracket_item : element :=
  item "http://[::1" "Sharp Objects" "Four" (String pound "47.82") " In stock ".

(** A page with three articles: one with such an address, one as the
    catalogue writes it, one without a link; and a network that answers
    every request with it. *)
Definition page_mixed : element :=
  Tag "[document]" [] []
    [ Tag "section" [] [] [bracket_item; attic_item; unlinked_item] ].

Definition net_mixed (n : nat) (url : string) : option element :=
  Some page_mixed.

(** ** The scraper *)

Section Scraper.

(** [urllib.parse.urljoin(base, url)]: the joined address, or the
    exception it raises. *)
Variable urljoin : string -> string -> result string.

(** Python floats: [float(s)], [None] standing for [ValueError], and
    [str(x)] as the csv writer prints a float. *)
Context {float_t : Type}.
Variable float : string -> option float_t.
Variable float_str : float_t -> string.

(** The answer of the network to the [n]-th request of the session, when
    that request is a GET of the given URL: the parsed page, or [None] for
    any failure. *)
Variable net : nat -> string -> option element.

(** The file system: whether [open(filename, 'w')] succeeds, and whether
    the [i]-th row handed to the writer (the header is row 0) reaches the
    file without an error. *)
Variable can_open : string -> bool.
Variable can_write : nat -> bool.

(** What a disk fault leaves in the file of the text handed to it.  The
    file object is buffered: the fault surfaces in a write, in a later
    flush or at the close, and the file can be cut anywhere, also in the
    middle of a row.  Nothing is assumed of this function. *)
Variable disk_cut : string -> string.

(** [self.base_url] *)
Variable base_url : string.

(** [get_page]: one request; every failure is [None]. *)
Definition get_page (url : string) (n : nat) : option element * nat :=
  (net n url, S n).

(** The normalisation of the availability text. *)
Definition in_stock_text (availability_text : string) : bool :=
  contains "In stock" availability_text
  || contains "instock" (lower availability_text).

Definition out_of_stock_text (availability_text : string) : bool :=
  contains "Out of stock" availability_text
  || contains "outofstock" (lower availability_text).

(** The node the availability is read from: the first [p] of class
    [instock], else the first [p] of class [outofstock]. *)
Definition availability_tag (book_element : element) : option element :=
  match find "p" (Some "instock") book_element with
  | Some t => Some t
  | None => find "p" (Some "outofstock") book_element
  end.

(** The [try] block of [extract_book_data]: it returns [None] when the
    title link is missing, else the dict with its five entries set one
    after the other.  The [ValueError] of [float] is caught inside, by the
    handler that sets a null Price; an exception of [urljoin] leaves the
    block. *)
Definition extract_book_data_try (book_element : element)
  : result (option (gmap string (value float_t))) :=
  let book_data : gmap string (value float_t) := ∅ in
  let title_tag := find "h3" None book_element in
  match title_tag ≫= find "a" None with
  | None => Return None
  | Some a =>
      let book_data :=
        <["Title" := VStr (strip (get a "title" EmptyString))]> book_data in
      let price_tag := find "p" (Some "price_color") book_element in
      let book_data :=
        match price_tag with
        | Some price_tag =>
            let price_text := strip (get_text price_tag) in
            match float (replace_char pound EmptyString price_text) with
            | Some x => <["Price" := VFloat x]> book_data
            | None => <["Price" := VNone]> book_data
            end
        | None => <["Price" := VNone]> book_data
        end in
      let rating_tag := find "p" (Some "star-rating") book_element in
      let book_data :=
        match rating_tag with
        | Some rating_tag =>
            let rating_class := join " " (get_class rating_tag) in
            <["Rating" := match extract_rating rating_class with
                          | Some r => VInt r
                          | None => VNone
                          end]> book_data
        | None => <["Rating" := VNone]> book_data
        end in
      let book_data :=
        match availability_tag book_element with
        | Some tag =>
            let availability_text := strip (get_text tag) in
            if in_stock_text availability_text
            then <["Availability" := VStr "In stock"]> book_data
            else if out_of_stock_text availability_text
            then <["Availability" := VStr "Out of stock"]> book_data
            else <["Availability" := VStr availability_text]> book_data
        | None => <["Availability" := VNone]> book_data
        end in
      let link_tag := find "h3" None book_element in
      match link_tag ≫= find "a" None with
      | Some a =>
          let relative_url := get a "href" EmptyString in
          match urljoin base_url relative_url with
          | Return url => Return (Some (<["URL" := VStr url]> book_data))
          | Raise e => Raise e
          end
      | None => Return (Some (<["URL" := VNone]> book_data))
      end
  end.

(** [extract_book_data]: the [try] block, any exception of which is caught
    and turned into [None]. *)
Definition extract_book_data (book_element : element)
  : option (gmap string (value float_t)) :=
  match extract_book_data_try book_element with
  | Return book_data => book_data
  | Raise _ => None
  end.

(** The link under the heading, which carries the title and the address. *)
Definition title_link (book_element : element) : option element :=
  find "h3" None book_element ≫= find "a" None.

(** The entries [extract_book_data] stores, read off its branches. *)
Definition price_entry (book_element : element) : value float_t :=
  match find "p" (Some "price_color") book_element with
  | Some price_tag =>
      match float (replace_char pound EmptyString (strip (get_text price_tag))) with
      | Some x => VFloat x
      | None => VNone
      end
  | None => VNone
  end.

Definition rating_entry (book_element : element) : value float_t :=
  match find "p" (Some "star-rating") book_element with
  | Some rating_tag =>
      match extract_rating (join " " (get_class rating_tag)) with
      | Some r => VInt r
      | None => VNone
      end
  | None => VNone
  end.

Definition availability_entry (book_element : element) : value float_t :=
  match availability_tag book_element with
  | Some tag =>
      let availability_text := strip (get_text tag) in
      if in_stock_text availability_text then VStr "In stock"
      else if out_of_stock_text availability_text then VStr "Out of stock"
      else VStr availability_text
  | None => VNone
  end.

(** [if book_data:] a result that is not [None] and not an empty dict. *)
Definition truthy_book (book_data : option (gmap string (value float_t))) : bool :=
  match book_data with
  | Some d => negb (Nat.eqb (size d) 0)
  | None => false
  end.

(** The [for book_element in book_elements] loop of [scrape_page]. *)
Fixpoint extract_books (book_elements : list element)
    (books : list (gmap string (value float_t))) : list (gmap string (value float_t)) :=
  match book_elements with
  | book_element :: rest =>
      let book_data := extract_book_data book_element in
      if truthy_book book_data
      then extract_books rest (books ++ option_list book_data)
      else extract_books rest books
  | [] => books
  end.

(** [scrape_page]: the books of the page and the request counter after its
    one request. *)
Definition scrape_page (url : string) (n : nat)
  : list (gmap string (value float_t)) * nat :=
  let '(soup, n) := get_page url n in
  match soup with
  | None => ([], n)
  | Some soup =>
      (extract_books (find_all "article" (Some "product_pod") soup) [], n)
  end.

(** The [try] block of [get_next_page_url]. *)
Definition get_next_page_url_try (soup : element) (current_url : string)
  : result (option string) :=
  match find "li" (Some "next") soup with
  | Some next_button =>
      match find "a" None next_button with
      | Some a =>
          match urljoin current_url (get a "href" EmptyString) with
          | Return next_url => Return (Some next_url)
          | Raise e => Raise e
          end
      | None => Return None
      end
  | None => Return None
  end.

(** [get_next_page_url]: the [try] block, any exception of which is caught
    and turned into [None]. *)
Definition get_next_page_url (soup : element) (current_url : string)
  : option string :=
  match get_next_page_url_try soup current_url with
  | Return next_url => next_url
  | Raise _ => None
  end.

(** The variables of [scrape_all_pages], with the number of requests the
    session has issued. *)
Record crawl : Type := Crawl {
  current_url : option string;
  all_books : list (gmap string (value float_t));
  requests : nat
}.

(** [while current_url:] neither [None] nor the empty string. *)
Definition truthy_url (u : option string) : option string :=
  match u with
  | Some EmptyString => None
  | other => other
  end.

(** How one pass through the loop body ends. *)
Inductive pass : Type :=
| Continue (c : crawl)
| Break (c : crawl).

(** One pass through the body of the [while] loop, at a true [url]. *)
Definition loop_body (url : string) (c : crawl) : pass :=
  let '(page_books, n) := scrape_page url (requests c) in
  let all_books := (all_books c ++ page_books)%list in
  let '(soup, n) := get_page url n in
  match soup with
  | Some soup =>
      Continue (Crawl (get_next_page_url soup url) all_books n)
  | None => Break (Crawl (Some url) all_books n)
  end.

(** The [while] loop, run for at most [fuel] passes; [None] when the loop
    has not ended within them. *)
Fixpoint while_loop (fuel : nat) (c : crawl) : option crawl :=
  match truthy_url (current_url c) with
  | None => Some c
  | Some url =>
      match fuel with
      | 0 => None
      | S fuel' =>
          match loop_body url c with
          | Continue c' => while_loop fuel' c'
          | Break c' => Some c'
          end
      end
  end.

(** The state on entry to the loop. *)
Definition crawl_start : crawl := Crawl (Some base_url) [] 0.

(** [scrape_all_pages]: the list it returns. *)
Definition scrape_all_pages (fuel : nat) : option (list (gmap string (value float_t))) :=
  all_books <$> while_loop fuel crawl_start.

(** The state after [k] full passes, when the loop is still running then. *)
Fixpoint after_passes (k : nat) (c : crawl) : option crawl :=
  match k with
  | 0 => Some c
  | S k' =>
      match truthy_url (current_url c) with
      | None => None
      | Some url =>
          match loop_body url c with
          | Continue c' => after_passes k' c'
          | Break _ => None
          end
      end
  end.

(** What [scrape_page] returned in each of the first [k] passes, in order. *)
Fixpoint page_books_of (k : nat) (c : crawl) : list (list (gmap string (value float_t))) :=
  match k with
  | 0 => []
  | S k' =>
      match truthy_url (current_url c) with
      | None => []
      | Some url =>
          fst (scrape_page url (requests c)) ::
          match loop_body url c with
          | Continue c' => page_books_of k' c'
          | Break _ => []
          end
      end
  end.

(** The text of one cell: [None] and a missing key give the empty string,
    a string itself, a number its [str]. *)
Definition cell_text (v : option (value float_t)) : string :=
  match v with
  | None | Some VNone => EmptyString
  | Some (VStr s) => s
  | Some (VInt n) => pretty n
  | Some (VFloat x) => float_str x
  end.

(** [DictWriter._dict_to_list]: a key outside [fieldnames] raises
    [ValueError]; a column the dict lacks gets the empty string. *)
Definition dict_to_list (rowdict : gmap string (value float_t))
  : result (list string) :=
  if decide (dom rowdict ⊆ list_to_set fieldnames)
  then Return (List.map (fun k => cell_text (rowdict !! k)) fieldnames)
  else Raise ValueError.

(** The row written for a dict whose keys are all column names. *)
Definition data_row (book : gmap string (value float_t)) : string :=
  csv.writerow (List.map (fun k => cell_text (book !! k)) fieldnames).

(** [writer.writerow(book)] as row [i] of the file: the outcome, and the
    text the file has taken after it.  A key that is no column raises
    before anything is handed to the file; a disk fault leaves of the text
    handed to the file what [disk_cut] says. *)
Definition writerow_dict (i : nat) (book : gmap string (value float_t))
    (content : string) : result unit * string :=
  match dict_to_list book with
  | Return fields =>
      if can_write i then (Return tt, content ++ csv.writerow fields)
      else (Raise OSError, disk_cut (content ++ csv.writerow fields))
  | Raise e => (Raise e, content)
  end.

(** [for book in self.books_data: writer.writerow(book)], from row [i] on. *)
Fixpoint write_rows (i : nat) (books : list (gmap string (value float_t)))
    (content : string) : result unit * string :=
  match books with
  | book :: rest =>
      match writerow_dict i book content with
      | (Return _, content) => write_rows (S i) rest content
      | (Raise e, content) => (Raise e, content)
      end
  | [] => (Return tt, content)
  end.

(** The [try] block of [save_to_csv]: open the file, write the header,
    write the rows, return [True].  With the outcome comes the content of
    the file, when the call opened it. *)
Definition save_to_csv_try (books_data : list (gmap string (value float_t)))
    (filename : string) : result bool * option string :=
  if can_open filename then
    if can_write 0 then
      match write_rows 1 books_data (csv.writerow fieldnames) with
      | (Return _, content) => (Return true, Some content)
      | (Raise e, content) => (Raise e, Some content)
      end
    else (Raise OSError, Some (disk_cut (csv.writerow fieldnames)))
  else (Raise OSError, None).

(** [save_to_csv]: [False] at once on an empty list; otherwise the [try]
    block, any exception of which is caught and turned into [False]. *)
Definition save_to_csv (books_data : list (gmap string (value float_t)))
    (filename : string) : result bool * option string :=
  match books_data with
  | [] => (Return false, None)
  | _ :: _ =>
      match save_to_csv_try books_data filename with
      | (Return b, file) => (Return b, file)
      | (Raise _, file) => (Return false, file)
      end
  end.

(** ** The pause, and [run] *)

(** [self.request_delay], as [__init__] sets it. *)
Definition request_delay : nat := 1.

(** The seconds slept at the end of one pass: the loop sleeps after a
    fetch that succeeded, when there is a next URL to go to. *)
Definition pass_sleep (p : pass) : nat :=
  match p with
  | Continue c' =>
      match truthy_url (current_url c') with
      | Some _ => request_delay
      | None => 0
      end
  | Break _ => 0
  end.

(** The seconds slept by the [while] loop run for at most [fuel] passes. *)
Fixpoint slept (fuel : nat) (c : crawl) : nat :=
  match truthy_url (current_url c) with
  | None => 0
  | Some url =>
      match fuel with
      | 0 => 0
      | S fuel' =>
          pass_sleep (loop_body url c) +
          match loop_body url c with
          | Continue c' => slept fuel' c'
          | Break _ => 0
          end
      end
  end.

(** A network that answers a given URL the same way at every request. *)
Definition steady : Prop :=
  forall (n m : nat) (url : string), net n url = net m url.

(** The line feeds held by the cells of a book. *)
Definition cell_line_feeds (book : gmap string (value float_t)) : nat :=
  list_sum (List.map (fun k => count_lines (cell_text (book !! k))) fieldnames).

(** What a call of [run] leaves behind: the boolean returned, the list
    stored in [self.books_data], the content of [books_data.csv] when
    the call opened it, and the number of requests issued. *)
Record run_result : Type := RunResult {
  run_returned : result bool;
  run_books_data : list (gmap string (value float_t));
  run_file : option string;
  run_requests : nat
}.

(** The second half of [run], once [self.books_data] is set: save when
    the list is not empty, else return [False]; an exception is caught
    and turned into [False]. *)
Definition run_save (books_data : list (gmap string (value float_t)))
    (n : nat) : run_result :=
  match books_data with
  | [] => RunResult (Return false) books_data None n
  | _ :: _ =>
      match save_to_csv books_data "books_data.csv" with
      | (Return b, file) => RunResult (Return b) books_data file n
      | (Raise _, file) => RunResult (Return false) books_data file n
      end
  end.

(** [run(scrape_all)]: the whole crawl, for at most [fuel] passes, or the
    page at [self.base_url] alone; then the saving. *)
Definition run (scrape_all : bool) (fuel : nat) : option run_result :=
  if scrape_all then
    match while_loop fuel crawl_start with
    | Some c => Some (run_save (all_books c) (requests c))
    | None => None
    end
  else
    let '(books_data, n) := scrape_page base_url 0 in
    Some (run_save books_data n).


(** ** Substrings and the rating words *)

Lemma startswith_spec (p s : string) :
  startswith p s = true <-> exists post, s = p ++ post.
Proof.
  revert s. induction p as [|a p IH]; intros s; simpl.
  - split; [intros _; by exists s | done].
  - destruct s as [|b s].
    + split; [done | intros [post H]; discriminate H].
    + destruct (Ascii.eqb_spec a b) as [->|Hne].
      * rewrite IH. split; intros [post H]; exists post.
        -- by rewrite H.
        -- by injection H.
      * split; [done | intros [post H]; injection H; congruence].
Qed.

(** [sub in s] is true exactly when [sub] occurs somewhere in [s]. *)
Lemma contains_spec (sub s : string) :
  contains sub s = true <-> occurs sub s.
Proof.
  unfold occurs. induction s as [|c s IH]; simpl.
  - rewrite orb_false_r, startswith_spec. split.
    + intros [post H]. by exists EmptyString, post.
    + intros [[|c pre] [post H]]; [by exists post | discriminate H].
  - rewrite orb_true_iff, startswith_spec, IH. split.
    + intros [[post H] | (pre & post & H)].
      * by exists EmptyString, post.
      * exists (String c pre), post. simpl. by rewrite H.
    + intros [[|c' pre] [post H]].
      * left. by exists post.
      * right. exists pre, post. simpl in H. by injection H.
Qed.

Lemma contains_false (sub s : string) :
  contains sub s = false <-> ~ occurs sub s.
Proof. rewrite <- contains_spec. by destruct (contains sub s). Qed.

Lemma first_rating_none items s :
  first_rating items s = None <->
  forall w r, In (w, r) items -> ~ occurs w s.
Proof.
  induction items as [|[w0 r0] items IH]; simpl.
  - split; [intros _ w r [] | done].
  - destruct (contains w0 s) eqn:Hc.
    + split; [done | intros H]. apply contains_spec in Hc.
      by destruct (H w0 r0); [left |].
    + rewrite IH. apply contains_false in Hc. split.
      * intros H w r [[= <- <-] | Hin]; [done | by eapply H].
      * intros H w r Hin. apply (H w r). by right.
Qed.

(** The loop returns the rating of the first word of the dict, in its
    order, that occurs in the class string. *)
Lemma first_rating_some items s r :
  first_rating items s = Some r <->
  exists before w after,
    items = (before ++ (w, r) :: after)%list /\ occurs w s /\
    forall w' r', In (w', r') before -> ~ occurs w' s.
Proof.
  induction items as [|[w0 r0] items IH]; simpl.
  - split; [done | intros (before & w & after & H & _)].
    by destruct before.
  - destruct (contains w0 s) eqn:Hc.
    + apply contains_spec in Hc. split.
      * intros [= <-]. exists [], w0, items.
        repeat split; [done |]. by intros w' r' [].
      * intros ([|[w1 r1] before] & w & after & H & Hw & Hnone).
        -- by simplify_eq/=.
        -- simplify_eq/=. edestruct Hnone; [by left | done].
    + apply contains_false in Hc. rewrite IH. split.
      * intros (before & w & after & -> & Hw & Hnone).
        exists ((w0, r0) :: before), w, after. repeat split; [done |].
        intros w' r' [[= <- <-] | Hin]; [done | by eapply Hnone].
      * intros ([|[w1 r1] before] & w & after & H & Hw & Hnone).
        -- by simplify_eq/=.
        -- simplify_eq/=. exists before, w, after.
           repeat split; [done |]. intros w' r' Hin. apply (Hnone w' r'). by right.
Qed.

Lemma rating_map_range w r : In (w, r) rating_map -> (1 <= r <= 5)%Z.
Proof.
  unfold rating_map. simpl. intros H.
  repeat (destruct H as [[= <- <-] | H]; [lia |]). done.
Qed.

(** C4 (as amended): the rating read from a class string is decided by a
    substring match that respects letter case and ignores position.  It is
    null exactly when none of the capitalised words One, Two, Three, Four,
    Five occurs in the string; otherwise it is the number, between 1 and 5,
    of the first of these words, in that order, that occurs.  So a class
    string in which Three occurs, and neither One nor Two, is rated 3. *)
Theorem C4_rating_is_first_capitalised_word (rating_class : string) :
  (extract_rating rating_class = None <->
     forall w r, In (w, r) rating_map -> ~ occurs w rating_class)
  /\ (forall r, extract_rating rating_class = Some r <->
        exists before w after,
          rating_map = (before ++ (w, r) :: after)%list /\
          occurs w rating_class /\
          forall w' r', In (w', r') before -> ~ occurs w' rating_class)
  /\ (forall r, extract_rating rating_class = Some r -> (1 <= r <= 5)%Z)
  /\ (occurs "Three" rating_class -> ~ occurs "One" rating_class ->
      ~ occurs "Two" rating_class -> extract_rating rating_class = Some 3%Z).
Proof.
  unfold extract_rating. split; [apply first_rating_none |].
  split; [intros r; apply first_rating_some |]. split.
  - intros r (before & w & after & Hmap & _)%first_rating_some.
    apply (rating_map_range w). rewrite Hmap. apply in_or_app. right. by left.
  - intros H3 H1 H2. apply first_rating_some.
    exists [("One", 1%Z); ("Two", 2%Z)], "Three", [("Four", 4%Z); ("Five", 5%Z)].
    repeat split; [done |].
    intros w' r' [[= <- <-] | [[= <- <-] | []]]; done.
Qed.

(** ** The extractor *)

Lemma extract_book_data_no_link (book_element : element) :
  title_link book_element = None -> extract_book_data book_element = None.
Proof.
  unfold title_link, extract_book_data, extract_book_data_try. by intros ->.
Qed.

Lemma extract_book_data_try_link (book_element a : element) :
  title_link book_element = Some a ->
  extract_book_data_try book_element =
    match urljoin base_url (get a "href" EmptyString) with
    | Return url =>
        Return (Some (<["URL" := VStr url]>
                     (<["Availability" := availability_entry book_element]>
                     (<["Rating" := rating_entry book_element]>
                     (<["Price" := price_entry book_element]>
                     (<["Title" := VStr (strip (get a "title" EmptyString))]> ∅))))))
    | Raise e => Raise e
    end.
Proof.
  unfold title_link, extract_book_data_try. intros ->.
  unfold availability_entry, rating_entry, price_entry.
  destruct (find "p" (Some "price_color") book_element) as [price_tag|];
    [destruct (float _) |];
    (destruct (find "p" (Some "star-rating") book_element) as [rating_tag|];
       [destruct (extract_rating _) |]);
    (destruct (availability_tag book_element) as [tag|];
       [cbv zeta; destruct (in_stock_text _); [| destruct (out_of_stock_text _)] |]);
    reflexivity.
Qed.

(** With a link under the heading whose address [urljoin] accepts, the
    dict is built, entry by entry. *)
Lemma extract_book_data_link (book_element a : element) (url : string) :
  title_link book_element = Some a ->
  urljoin base_url (get a "href" EmptyString) = Return url ->
  extract_book_data book_element =
    Some (<["URL" := VStr url]>
         (<["Availability" := availability_entry book_element]>
         (<["Rating" := rating_entry book_element]>
         (<["Price" := price_entry book_element]>
         (<["Title" := VStr (strip (get a "title" EmptyString))]> ∅))))).
Proof.
  intros Ha Hurl. unfold extract_book_data.
  by rewrite (extract_book_data_try_link _ a Ha), Hurl.
Qed.

(** When [urljoin] raises on the address of the link, the handler of
    [extract_book_data] returns [None]: the item is dropped. *)
Lemma extract_book_data_raise (book_element a : element) (e : exn) :
  title_link book_element = Some a ->
  urljoin base_url (get a "href" EmptyString) = Raise e ->
  extract_book_data book_element = None.
Proof.
  intros Ha Hurl. unfold extract_book_data.
  by rewrite (extract_book_data_try_link _ a Ha), Hurl.
Qed.

(** A dict is returned only on that path. *)
Lemma extract_book_data_inv (book_element : element)
    (book_data : gmap string (value float_t)) :
  extract_book_data book_element = Some book_data ->
  exists a url,
    title_link book_element = Some a
    /\ urljoin base_url (get a "href" EmptyString) = Return url
    /\ book_data =
         <["URL" := VStr url]>
         (<["Availability" := availability_entry book_element]>
         (<["Rating" := rating_entry book_element]>
         (<["Price" := price_entry book_element]>
         (<["Title" := VStr (strip (get a "title" EmptyString))]> ∅)))).
Proof.
  destruct (title_link book_element) as [a|] eqn:Ha;
    [| by rewrite (extract_book_data_no_link _ Ha)].
  destruct (urljoin base_url (get a "href" EmptyString)) as [url|e] eqn:Hurl.
  - rewrite (extract_book_data_link _ a url Ha Hurl). intros [= <-].
    by exists a, url.
  - by rewrite (extract_book_data_raise _ a e Ha Hurl).
Qed.

(** The URL entry of a dict is never null, and never depends on the page
    the item was found on: it is the href joined to [self.base_url]. *)
Lemma extract_book_data_url (book_element : element)
    (book_data : gmap string (value float_t)) :
  extract_book_data book_element = Some book_data ->
  exists a url, title_link book_element = Some a
    /\ urljoin base_url (get a "href" EmptyString) = Return url
    /\ book_data !! "Title" = Some (VStr (strip (get a "title" EmptyString)))
    /\ book_data !! "URL" = Some (VStr url).
Proof.
  intros (a & url & Ha & Hurl & ->)%extract_book_data_inv. exists a, url.
  split; [done |]. split; [done |]. split; [| by rewrite lookup_insert_eq].
  rewrite !lookup_insert_ne by done. by rewrite lookup_insert_eq.
Qed.

(** A dict is returned exactly for an item that has a link under its
    heading whose address [urljoin] accepts. *)
Lemma extract_book_data_is_Some (book_element : element) :
  is_Some (extract_book_data book_element) <->
  exists a url, title_link book_element = Some a
    /\ urljoin base_url (get a "href" EmptyString) = Return url.
Proof.
  split.
  - intros [d (a & url & Ha & Hurl & _)%extract_book_data_inv]. by exists a, url.
  - intros (a & url & Ha & Hurl). rewrite (extract_book_data_link _ a url Ha Hurl).
    eauto.
Qed.

Lemma extract_book_data_dom (book_element : element) (book_data : gmap string (value float_t)) :
  extract_book_data book_element = Some book_data ->
  dom book_data = list_to_set fieldnames.
Proof.
  intros (a & url & _ & _ & ->)%extract_book_data_inv.
  rewrite !dom_insert_L, dom_empty_L. unfold fieldnames. simpl. set_solver.
Qed.

(** A dict the extractor returns passes the [if book_data:] test. *)
Lemma extract_book_data_truthy (book_element : element) (book_data : gmap string (value float_t)) :
  extract_book_data book_element = Some book_data ->
  truthy_book (Some book_data) = true.
Proof.
  intros H. apply extract_book_data_dom in H. simpl.
  apply negb_true_iff, Nat.eqb_neq. intros Hsize.
  apply map_size_empty_iff in Hsize. subst book_data.
  rewrite dom_empty_L in H. unfold fieldnames in H. simpl in H. set_solver.
Qed.

(** The loop of [scrape_page] keeps the dict of every element that has
    one, in page order. *)
Lemma extract_books_omap (book_elements : list element) (books : list (gmap string (value float_t))) :
  extract_books book_elements books =
  (books ++ omap extract_book_data book_elements)%list.
Proof.
  revert books. induction book_elements as [|e els IH]; intros books; simpl.
  - by rewrite app_nil_r.
  - destruct (extract_book_data e) as [d|] eqn:He.
    + rewrite (extract_book_data_truthy e d He), IH. simpl.
      by rewrite <- app_assoc.
    + simpl. apply IH.
Qed.

Lemma extract_books_single (book_element : element) (book_data : gmap string (value float_t)) :
  extract_book_data book_element = Some book_data ->
  extract_books [book_element] [] = [book_data].
Proof.
  intros H. rewrite extract_books_omap. cbn -[extract_book_data]. by rewrite H.
Qed.

(** C1 (the code departs from the claim): a container whose link has no
    [title] attribute is not skipped.  Its address being one that
    [urljoin] accepts, [extract_book_data] returns a dict for it whose
    Title is the empty string, and the loop of [scrape_page] keeps that
    dict. *)
Theorem C1_link_without_title_gives_empty_title (url : string) :
  urljoin base_url "catalogue/soumission_998/index.html" = Return url ->
  exists book_data : gmap string (value float_t),
    extract_book_data untitled_item = Some book_data
    /\ book_data !! "Title" = Some (VStr EmptyString)
    /\ extract_books [untitled_item] [] = [book_data].
Proof.
  intros Hurl.
  pose proof (extract_book_data_link untitled_item _ url eq_refl Hurl) as H.
  eexists. split; [exact H | split].
  - reflexivity.
  - by apply extract_books_single.
Qed.

(** C2 (the code departs from the claim): whatever the URL of the page an
    item is scraped from, its URL entry is the link's href joined to
    [self.base_url], the address the crawl started from, and not to the
    address of the page.  Shown on the second page of the sample
    catalogue, whose item links to [in-her-wake_980/index.html]. *)
Theorem C2_href_is_joined_to_base_url_whatever_the_page (url : string) (n : nat)
    (joined : string) :
  net n url = Some page_2 ->
  urljoin base_url "in-her-wake_980/index.html" = Return joined ->
  exists book_data : gmap string (value float_t),
    fst (scrape_page url n) = [book_data]
    /\ book_data !! "URL" = Some (VStr joined).
Proof.
  intros Hnet Hjoin. unfold scrape_page, get_page. rewrite Hnet.
  change (find_all "article" (Some "product_pod") page_2) with [wake_item].
  eexists. split.
  - apply extract_books_single.
    exact (extract_book_data_link wake_item _ joined eq_refl Hjoin).
  - by rewrite lookup_insert_eq.
Qed.


(** C10: every dict the extractor returns has exactly the five keys Title,
    Price, Rating, Availability and URL, so the writer of [save_to_csv],
    set up with these five column names, accepts it: listing its cells
    raises no error and yields five of them. *)
Theorem C10_extracted_dict_has_the_five_keys (book_element : element)
    (book_data : gmap string (value float_t)) :
  extract_book_data book_element = Some book_data ->
  dom book_data = {["Title"; "Price"; "Rating"; "Availability"; "URL"]}
  /\ (forall key, is_Some (book_data !! key) <-> In key fieldnames)
  /\ exists cells, dict_to_list book_data = Return cells /\ length cells = 5.
Proof.
  intros H. pose proof (extract_book_data_dom _ _ H) as Hdom.
  split; [| split].
  - rewrite Hdom. unfold fieldnames. simpl. set_solver.
  - intros key. rewrite <- elem_of_dom, Hdom, elem_of_list_to_set.
    apply list_elem_of_In.
  - unfold dict_to_list. rewrite Hdom.
    destruct (decide _) as [_|Hn]; [| by destruct Hn].
    eexists. split; [reflexivity | reflexivity].
Qed.

(** ** The crawl loop *)

Lemma scrape_page_requests (url : string) (n : nat) :
  snd (scrape_page url n) = S n.
Proof. unfold scrape_page, get_page. by destruct (net n url). Qed.

(** One pass issues two requests for the same URL: the one of
    [scrape_page], then the one of the loop, which alone decides how the
    pass ends. *)
Lemma loop_body_eq (url : string) (c : crawl) :
  loop_body url c =
  let all_books := (all_books c ++ fst (scrape_page url (requests c)))%list in
  match net (S (requests c)) url with
  | Some soup =>
      Continue (Crawl (get_next_page_url soup url) all_books (S (S (requests c))))
  | None => Break (Crawl (Some url) all_books (S (S (requests c))))
  end.
Proof.
  unfold loop_body. pose proof (scrape_page_requests url (requests c)) as Hn.
  destruct (scrape_page url (requests c)) as [page_books n]. simpl in *.
  subst n. unfold get_page. by destruct (net _ url).
Qed.

Lemma get_next_page_url_no_indicator (soup : element) (current_url : string) :
  find "li" (Some "next") soup = None ->
  get_next_page_url soup current_url = None.
Proof. unfold get_next_page_url, get_next_page_url_try. by intros ->. Qed.

Lemma while_loop_mono (fuel fuel' : nat) (c r : crawl) :
  while_loop fuel c = Some r -> fuel <= fuel' -> while_loop fuel' c = Some r.
Proof.
  revert fuel' c. induction fuel as [|fuel IH]; intros fuel' c.
  - destruct fuel'; simpl; destruct (truthy_url _); done.
  - intros H Hle. destruct fuel' as [|fuel']; [lia |].
    simpl in *. destruct (truthy_url _); [| done].
    destruct (loop_body _ _); [| done]. apply IH; [done | lia].
Qed.

(** Running the loop after [k] full passes is running it from the state
    they lead to. *)
Lemma while_loop_after_passes (k fuel : nat) (c c' : crawl) :
  after_passes k c = Some c' ->
  while_loop (k + fuel) c = while_loop fuel c'.
Proof.
  revert c. induction k as [|k IH]; intros c; simpl.
  - by intros [= ->].
  - destruct (truthy_url (current_url c)) as [url|]; [| done].
    destruct (loop_body url c) as [c1|c1]; [apply IH | done].
Qed.

Lemma after_passes_last (k : nat) (c c' : crawl) (url : string) :
  after_passes k c = Some c' ->
  truthy_url (current_url c') = Some url ->
  page_books_of (S k) c =
    (page_books_of k c ++ [fst (scrape_page url (requests c'))])%list.
Proof.
  revert c. induction k as [|k IH]; intros c.
  - simpl. intros [= ->] ->. by destruct (loop_body url c').
  - intros Hk Hurl. simpl in Hk.
    change (page_books_of (S (S k)) c) with
      (match truthy_url (current_url c) with
       | None => []
       | Some u =>
           fst (scrape_page u (requests c)) ::
           match loop_body u c with
           | Continue c1 => page_books_of (S k) c1
           | Break _ => []
           end
       end).
    change (page_books_of (S k) c) with
      (match truthy_url (current_url c) with
       | None => []
       | Some u =>
           fst (scrape_page u (requests c)) ::
           match loop_body u c with
           | Continue c1 => page_books_of k c1
           | Break _ => []
           end
       end).
    destruct (truthy_url (current_url c)) as [u|]; [| done].
    destruct (loop_body u c) as [c1|c1]; [| done].
    by rewrite (IH c1 Hk Hurl).
Qed.

(** The accumulator holds the books of the pages passed, in the order the
    pages were visited in. *)
Lemma after_passes_all_books (k : nat) (c c' : crawl) :
  after_passes k c = Some c' ->
  all_books c' = (all_books c ++ concat (page_books_of k c))%list.
Proof.
  revert c. induction k as [|k IH]; intros c; simpl.
  - intros [= ->]. by rewrite app_nil_r.
  - destruct (truthy_url (current_url c)) as [url|]; [| done].
    rewrite loop_body_eq. cbv zeta.
    destruct (net (S (requests c)) url) as [soup|]; [| done].
    intros H. rewrite (IH _ H). simpl. by rewrite app_assoc.
Qed.

Lemma after_passes_length (k : nat) (c c' : crawl) :
  after_passes k c = Some c' -> length (page_books_of k c) = k.
Proof.
  revert c. induction k as [|k IH]; intros c; simpl; [done |].
  destruct (truthy_url (current_url c)) as [url|]; [| done].
  destruct (loop_body url c) as [c1|c1]; [| done].
  intros H. simpl. by rewrite (IH _ H).
Qed.

Lemma after_passes_requests (k : nat) (c c' : crawl) :
  after_passes k c = Some c' -> requests c' = 2 * k + requests c.
Proof.
  revert c. induction k as [|k IH]; intros c; simpl.
  - by intros [= ->].
  - destruct (truthy_url (current_url c)) as [url|]; [| done].
    rewrite loop_body_eq. cbv zeta.
    destruct (net (S (requests c)) url) as [soup|]; [| done].
    intros H. rewrite (IH _ H). simpl. lia.
Qed.

(** The pass in which the loop's own request fails is the last one. *)
Lemma while_loop_fetch_fails (fuel : nat) (c : crawl) (url : string) :
  truthy_url (current_url c) = Some url ->
  net (S (requests c)) url = None ->
  while_loop (S fuel) c =
    Some (Crawl (Some url)
            (all_books c ++ fst (scrape_page url (requests c)))
            (S (S (requests c)))).
Proof. intros Hurl Hnet. simpl. by rewrite Hurl, loop_body_eq, Hnet. Qed.

(** The pass on a page without a next indicator is the last one. *)
Lemma while_loop_no_next (fuel : nat) (c : crawl) (url : string) (soup : element) :
  truthy_url (current_url c) = Some url ->
  net (S (requests c)) url = Some soup ->
  find "li" (Some "next") soup = None ->
  while_loop (S fuel) c =
    Some (Crawl None
            (all_books c ++ fst (scrape_page url (requests c)))
            (S (S (requests c)))).
Proof.
  intros Hurl Hnet Hnext. simpl.
  rewrite Hurl, loop_body_eq, Hnet. cbv zeta.
  rewrite (get_next_page_url_no_indicator _ _ Hnext).
  by destruct fuel.
Qed.

(** A fetch that fails leaves [scrape_page] with no book. *)
Lemma scrape_page_fetch_fails (url : string) (n : nat) :
  net n url = None -> fst (scrape_page url n) = [].
Proof. unfold scrape_page, get_page. by intros ->. Qed.

(** When both requests for the start URL fail, the crawl returns nothing. *)
Lemma scrape_all_pages_start_down (fuel : nat) :
  net 0 base_url = None -> net 1 base_url = None ->
  scrape_all_pages (S fuel) = Some [].
Proof.
  intros H0 H1. unfold scrape_all_pages.
  destruct (truthy_url (current_url crawl_start)) as [url|] eqn:Hurl.
  - assert (url = base_url) as ->.
    { simpl in Hurl. destruct base_url; by simplify_eq. }
    rewrite (while_loop_fetch_fails fuel _ _ Hurl H1). simpl.
    by rewrite (scrape_page_fetch_fails _ _ H0).
  - simpl in *. by rewrite Hurl.
Qed.

(** ** The CSV file *)

Lemma append_nil_r (s : string) : s ++ EmptyString = s.
Proof.
  induction s as [|c s IH]; [done |].
  change (String c (s ++ EmptyString) = String c s). by rewrite IH.
Qed.

Lemma append_assoc (a b c : string) : (a ++ b) ++ c = a ++ b ++ c.
Proof.
  induction a as [|x a IH]; [done |].
  change (String x ((a ++ b) ++ c) = String x (a ++ b ++ c)). by rewrite IH.
Qed.

Lemma count_lines_app (a b : string) :
  count_lines (a ++ b) = count_lines a + count_lines b.
Proof. induction a as [|c a IH]; simpl; [done | rewrite IH; lia]. Qed.

Lemma count_lines_no_line_feed (s : string) :
  has_line_feed s = false -> count_lines s = 0.
Proof.
  induction s as [|c s IH]; simpl; [done |].
  intros [-> H]%orb_false_iff. by rewrite IH.
Qed.

(** Quoting a field adds and doubles quote characters only. *)
Lemma count_lines_doubled_quotes (s : string) :
  count_lines
    (replace_char csv.quotechar
       (String csv.quotechar (String csv.quotechar EmptyString)) s)
  = count_lines s.
Proof.
  induction s as [|c s IH]; [done |].
  cbn [replace_char]. destruct (Ascii.eqb_spec c csv.quotechar) as [->|Hne].
  - rewrite count_lines_app, IH. reflexivity.
  - cbn [count_lines]. by rewrite IH.
Qed.

Lemma count_lines_field (s : string) :
  count_lines (csv.field s) = count_lines s.
Proof.
  unfold csv.field. destruct (csv.needs_quotes s); [| done].
  cbn [count_lines]. rewrite count_lines_app, count_lines_doubled_quotes.
  change (count_lines (String csv.quotechar EmptyString)) with 0.
  change (Ascii.eqb csv.quotechar LF) with false. cbn iota. lia.
Qed.

Lemma count_lines_row (fields : list string) :
  Forall (fun s => has_line_feed s = false) fields ->
  count_lines (csv.writerow fields) = 1.
Proof.
  intros Hall. unfold csv.writerow. rewrite count_lines_app. simpl.
  enough (count_lines (join (String csv.delimiter EmptyString)
                         (List.map csv.field fields)) = 0) as -> by done.
  induction Hall as [|s fields Hs Hall IH]; [done |].
  simpl. destruct (List.map csv.field fields) as [|f fs] eqn:Hmap.
  - by rewrite count_lines_field, count_lines_no_line_feed.
  - rewrite !count_lines_app, count_lines_field, count_lines_no_line_feed by done.
    simpl. apply IH.
Qed.

(** What the row loop does: it writes the rows in order, and stops at the
    first dict with a key outside the columns or the first row the disk
    refuses. *)
Lemma join_empty_cons (x : string) (l : list string) :
  join EmptyString (x :: l) = x ++ join EmptyString l.
Proof. destruct l; [by rewrite append_nil_r | done]. Qed.

Lemma write_rows_return (i : nat) (books : list (gmap string (value float_t)))
    (content content' : string) (u : unit) :
  write_rows i books content = (Return u, content') ->
  content' = content ++ join EmptyString (List.map data_row books).
Proof.
  revert i content. induction books as [|book books IH]; intros i content.
  - intros [= _ <-]. symmetry. apply append_nil_r.
  - cbn [write_rows List.map]. rewrite join_empty_cons.
    unfold writerow_dict, dict_to_list. destruct (decide _) as [Hdom|]; [| done].
    destruct (can_write i); [| done]. intros H%IH. subst content'.
    apply append_assoc.
Qed.

Lemma write_rows_raise (i : nat) (books : list (gmap string (value float_t)))
    (content : string) :
  (exists e, fst (write_rows i books content) = Raise e) <->
  (exists j, j < length books /\ can_write (i + j) = false)
  \/ (exists book, In book books /\ ~ dom book ⊆ list_to_set fieldnames).
Proof.
  revert i content. induction books as [|book books IH]; intros i content.
  - simpl. split; [by intros [e He] |].
    intros [(j & Hj & _) | (b & [] & _)]. lia.
  - cbn [write_rows length In]. unfold writerow_dict, dict_to_list.
    destruct (decide _) as [Hdom|Hdom].
    + destruct (can_write i) eqn:Hw.
      * rewrite IH. split.
        -- intros [(j & Hj & Hwj) | (b & Hb & Hnot)].
           ++ left. exists (S j). split; [lia |]. by rewrite Nat.add_succ_r.
           ++ right. exists b. by split; [right |].
        -- intros [(j & Hj & Hwj) | (b & [<- | Hb] & Hnot)].
           ++ destruct j as [|j]; [by rewrite Nat.add_0_r, Hw in Hwj |].
              left. exists j. split; [lia |]. by rewrite Nat.add_succ_r in Hwj.
           ++ done.
           ++ right. by exists b.
      * split; [intros _ | by exists OSError]. left. exists 0.
        split; [lia | by rewrite Nat.add_0_r].
    + split; [intros _ | by exists ValueError].
      right. exists book. by split; [left |].
Qed.

(** The call never ends in an exception. *)
Lemma save_to_csv_returns (books_data : list (gmap string (value float_t)))
    (filename : string) :
  exists b, fst (save_to_csv books_data filename) = Return b.
Proof.
  unfold save_to_csv. destruct books_data as [|book books]; [by exists false |].
  destruct (save_to_csv_try _ _) as [[b|e] file]; eauto.
Qed.

(** C8 (as amended): [save_to_csv] never raises: every exception of its
    [try] block is turned into a returned false.  It returns false exactly
    when the book list is empty, the destination cannot be opened for
    writing, a row (the header or a book's) cannot be written to it, or a
    book carries a key outside the five columns. *)
Theorem C8_save_fails_exactly_on_empty_list_or_fault
    (books_data : list (gmap string (value float_t))) (filename : string) :
  (exists b, fst (save_to_csv books_data filename) = Return b)
  /\ (fst (save_to_csv books_data filename) = Return false <->
      books_data = []
      \/ can_open filename = false
      \/ (exists i, i <= length books_data /\ can_write i = false)
      \/ (exists book, In book books_data
                       /\ ~ dom book ⊆ list_to_set fieldnames)).
Proof.
  split; [apply save_to_csv_returns |].
  unfold save_to_csv, save_to_csv_try.
  destruct books_data as [|book books]; [by split; [left |] |].
  destruct (can_open filename); [| by split; [right; left |]].
  destruct (can_write 0) eqn:Hw0.
  - pose proof (write_rows_raise 1 (book :: books)
                  (csv.writerow fieldnames)) as Hrows.
    destruct (write_rows 1 (book :: books) _) as [[u|e] content];
      simpl fst in *.
    + split; [done |]. intros Hno. exfalso.
      assert (exists e : exn, Return u = Raise e) as [e He]; [| done].
      apply Hrows.
      destruct Hno as [| [| [(i & Hi & Hwi) | Hkey]]]; [done | done | | by right].
      left. destruct i as [|i]; [congruence |].
      exists i. split; [simpl in *; lia | done].
    + split; [intros _ | done].
      destruct (proj1 Hrows) as [(j & Hj & Hwj) | Hkey]; [by exists e | |].
      * right; right; left. exists (1 + j). split; [simpl in *; lia | done].
      * right; right; by right.
  - split; [intros _ | done]. right; right; left. exists 0. split; [lia | done].
Qed.

(** C9 (as amended): when a list of N books is written with success, the
    file is the header row Title,Price,Rating,Availability,URL followed by
    one row per book in input order, each row made of the book's five
    cells in that column order, a null field giving an empty cell.  The
    file has exactly N+1 lines provided no cell holds a line feed; a cell
    that holds one is written quoted with the line feed kept. *)
Theorem C9_file_is_header_then_one_row_per_book
    (books_data : list (gmap string (value float_t))) (filename content : string) :
  save_to_csv books_data filename = (Return true, Some content) ->
  content =
    "Title,Price,Rating,Availability,URL" ++ CRLF ++
    join EmptyString
      (List.map
         (fun book =>
            join "," (List.map (fun key => csv.field (cell_text (book !! key)))
                               ["Title"; "Price"; "Rating"; "Availability"; "URL"])
            ++ CRLF)
         books_data)
  /\ csv.field (cell_text (Some VNone)) = EmptyString
  /\ ((forall book key, In book books_data -> In key fieldnames ->
         has_line_feed (cell_text (book !! key)) = false) ->
      count_lines content = S (length books_data)).
Proof.
  unfold save_to_csv, save_to_csv_try.
  destruct books_data as [|book books]; [done |].
  destruct (can_open filename); [| done].
  destruct (can_write 0); [| done].
  destruct (write_rows 1 (book :: books) _) as [[u|e] c] eqn:Hrows; [| done].
  intros [= ->]. apply write_rows_return in Hrows.
  split; [exact Hrows | split; [reflexivity |]].
  intros Hclean. rewrite Hrows. clear Hrows.
  rewrite count_lines_app.
  change (count_lines (csv.writerow fieldnames)) with 1.
  f_equal. revert Hclean. generalize (book :: books). clear.
  intros books Hclean. induction books as [|b books IH]; [done |].
  cbn [List.map length]. rewrite join_empty_cons, count_lines_app, IH.
  - unfold data_row. rewrite count_lines_row; [done |].
    apply Forall_forall. intros s (key & <- & Hkey)%list_elem_of_In%in_map_iff.
    apply Hclean; [by left | done].
  - intros b' key Hb'. apply Hclean. by right.
Qed.

(** ** Further properties of the extractor *)

Lemma append_cons (c : ascii) (a b : string) :
  String c a ++ b = String c (a ++ b).
Proof. reflexivity. Qed.

Lemma lstrip_spec (s : string) :
  exists pre, s = pre ++ lstrip s /\ all_space pre = true.
Proof.
  induction s as [|c s (pre & Hs & Hpre)]; [by exists EmptyString |].
  cbn [lstrip]. destruct (isspace c) eqn:Hc.
  - exists (String c pre). rewrite append_cons, <- Hs.
    split; [done |]. cbn [all_space]. by rewrite Hc, Hpre.
  - by exists EmptyString.
Qed.

Lemma lstrip_head (s : string) (c : ascii) (r : string) :
  lstrip s = String c r -> isspace c = false.
Proof.
  induction s as [|a s IH]; [done |]. cbn [lstrip].
  destruct (isspace a) eqn:Ha; [exact IH |]. by intros [= <- _].
Qed.

Lemma rstrip_spec (s : string) :
  exists post, s = rstrip s ++ post /\ all_space post = true.
Proof.
  induction s as [|c s (post & Hs & Hpost)]; [by exists EmptyString |].
  cbn [rstrip]. destruct (rstrip s) as [|b x] eqn:Hr.
  - destruct (isspace c) eqn:Hc.
    + exists (String c post). change (EmptyString ++ post) with post in Hs.
      split; [by rewrite Hs |]. cbn [all_space]. by rewrite Hc, Hpost.
    + exists post. rewrite append_cons. by rewrite Hs.
  - exists post. rewrite append_cons. by rewrite <- Hs.
Qed.

Lemma rstrip_last (s r : string) (c : ascii) :
  rstrip s = r ++ String c EmptyString -> isspace c = false.
Proof.
  revert r. induction s as [|a s IH]; intros r.
  - by destruct r.
  - cbn [rstrip]. destruct (rstrip s) as [|b x] eqn:Hr.
    + destruct (isspace a) eqn:Ha; [by destruct r |].
      destruct r as [|a' [|? ?]]; [by intros [= <-] | done | done].
    + destruct r as [|a' r']; [done |]. rewrite append_cons.
      intros [= _ H]. by apply (IH r').
Qed.

Lemma rstrip_head (s r : string) (c : ascii) :
  rstrip s = String c r -> exists r', s = String c r'.
Proof.
  destruct s as [|a s]; [done |]. cbn [rstrip].
  destruct (rstrip s); [destruct (isspace a) |]; intros [= <- _]; eauto.
Qed.

(** [strip] removes white space at both ends and nothing else. *)
Lemma strip_spec (s : string) :
  (exists pre post, s = pre ++ strip s ++ post
     /\ all_space pre = true /\ all_space post = true)
  /\ (forall c r, strip s = String c r -> isspace c = false)
  /\ (forall r c, strip s = r ++ String c EmptyString -> isspace c = false).
Proof.
  unfold strip. split; [| split].
  - destruct (lstrip_spec s) as (pre & Hs & Hpre).
    destruct (rstrip_spec (lstrip s)) as (post & Hl & Hpost).
    exists pre, post. by rewrite <- Hl.
  - intros c r H. destruct (rstrip_head _ _ _ H) as [r' Hl].
    by apply lstrip_head in Hl.
  - intros r c. apply rstrip_last.
Qed.

Lemma all_space_lstrip (s : string) :
  all_space s = true -> lstrip s = EmptyString.
Proof.
  induction s as [|c s IH]; [done |]. cbn [all_space lstrip].
  intros [Hc Hs]%andb_true_iff. rewrite Hc. by apply IH.
Qed.

Lemma all_space_rstrip (s : string) :
  all_space s = true -> rstrip s = EmptyString.
Proof.
  induction s as [|c s IH]; [done |]. cbn [all_space rstrip].
  intros [Hc Hs]%andb_true_iff. by rewrite (IH Hs), Hc.
Qed.

Lemma lstrip_app_space (pre s : string) :
  all_space pre = true -> lstrip (pre ++ s) = lstrip s.
Proof.
  induction pre as [|c pre IH]; [done |]. cbn [all_space].
  intros [Hc Hp]%andb_true_iff. rewrite append_cons. cbn [lstrip].
  rewrite Hc. by apply IH.
Qed.

Lemma rstrip_app_space (t post : string) :
  all_space post = true -> rstrip (t ++ post) = rstrip t.
Proof.
  intros Hpost. induction t as [|c t IH].
  - change (EmptyString ++ post) with post. by rewrite all_space_rstrip.
  - rewrite append_cons. cbn [rstrip]. by rewrite IH.
Qed.

Lemma length_lstrip (s : string) :
  String.length (lstrip s) <= String.length s.
Proof.
  induction s as [|c s IH]; [done |]. cbn [lstrip].
  destruct (isspace c); cbn [String.length]; lia.
Qed.

(** A text with white space around it is trimmed to that text, when the
    text itself has no white space at either end. *)
Lemma strip_padded (pre t post : string) :
  all_space pre = true -> all_space post = true ->
  lstrip t = t -> rstrip t = t ->
  strip (pre ++ t ++ post) = t.
Proof.
  intros Hpre Hpost Hl Hr. unfold strip. rewrite lstrip_app_space by done.
  destruct t as [|c r].
  - change (EmptyString ++ post) with post.
    by rewrite all_space_lstrip.
  - assert (isspace c = false) as Hc.
    { cbn [lstrip] in Hl. destruct (isspace c); [| done].
      pose proof (length_lstrip r) as Hlen. rewrite Hl in Hlen.
      cbn [String.length] in Hlen. lia. }
    rewrite append_cons. cbn [lstrip]. rewrite Hc, <- append_cons.
    by rewrite rstrip_app_space.
Qed.

(** Replacing a character by nothing removes its every occurrence and
    keeps the rest in order. *)
Lemma replace_char_removes (c : ascii) (s : string) :
  list_ascii_of_string (replace_char c EmptyString s)
  = List.filter (fun x => negb (Ascii.eqb x c)) (list_ascii_of_string s).
Proof.
  induction s as [|a s IH]; [done |].
  cbn [replace_char list_ascii_of_string List.filter].
  destruct (Ascii.eqb a c); cbn [negb].
  - exact IH.
  - cbn [list_ascii_of_string]. by rewrite IH.
Qed.

(** X1: on an answered request, [scrape_page] returns, in page order, the
    dict [extract_book_data] returns for each [product_pod] article that
    has one, and nothing for the others: the test [if book_data:] never
    drops a dict.  An article has a dict exactly when it has a link under
    its heading whose address [urljoin] accepts; an article without such
    a link, or on whose address [urljoin] raises, is left out.  So the
    list is no longer than the page has articles. *)
Theorem X1_scrape_page_keeps_every_dict (url : string) (n : nat) (soup : element) :
  net n url = Some soup ->
  let articles := find_all "article" (Some "product_pod") soup in
  fst (scrape_page url n) = omap extract_book_data articles
  /\ length (fst (scrape_page url n)) <= length articles
  /\ (forall book_data,
        book_data ∈ fst (scrape_page url n) <->
        exists article, article ∈ articles
          /\ extract_book_data article = Some book_data)
  /\ (forall article,
        is_Some (extract_book_data article) <->
        exists a joined,
          title_link article = Some a
          /\ urljoin base_url (get a "href" EmptyString) = Return joined).
Proof.
  intros Hnet articles.
  assert (fst (scrape_page url n) = omap extract_book_data articles) as Heq.
  { unfold scrape_page, get_page. rewrite Hnet. cbn [fst].
    by rewrite extract_books_omap. }
  split; [exact Heq | split; [| split]].
  - rewrite Heq. clear. induction articles as [|a l IH]; [done |].
    cbn [omap list_omap length]. destruct (extract_book_data a); simpl; lia.
  - intros book_data. by rewrite Heq, list_elem_of_omap.
  - apply extract_book_data_is_Some.
Qed.

(** X2: in every dict the extractor returns, Title and URL are strings,
    never null; Price is null or a float; Rating is null or an integer
    from 1 to 5; Availability is null or a string. *)
Theorem X2_entries_have_their_types (book_element : element)
    (book_data : gmap string (value float_t)) :
  extract_book_data book_element = Some book_data ->
  (exists title, book_data !! "Title" = Some (VStr title))
  /\ (exists url, book_data !! "URL" = Some (VStr url))
  /\ (book_data !! "Price" = Some VNone
      \/ exists x, book_data !! "Price" = Some (VFloat x))
  /\ (book_data !! "Rating" = Some VNone
      \/ exists r, book_data !! "Rating" = Some (VInt r) /\ (1 <= r <= 5)%Z)
  /\ (book_data !! "Availability" = Some VNone
      \/ exists text, book_data !! "Availability" = Some (VStr text)).
Proof.
  intros (a & url & _ & _ & ->)%extract_book_data_inv.
  split; [eexists; by rewrite !lookup_insert_ne, lookup_insert_eq by done |].
  split; [eexists; by rewrite lookup_insert_eq |].
  rewrite !(lookup_insert_ne _ "URL") by done.
  split; [| split].
  - rewrite !lookup_insert_ne, lookup_insert_eq by done. unfold price_entry.
    destruct (find "p" (Some "price_color") book_element); [| by left].
    destruct (float _); [right | left]; eauto.
  - rewrite !lookup_insert_ne, lookup_insert_eq by done. unfold rating_entry.
    destruct (find "p" (Some "star-rating") book_element); [| by left].
    destruct (extract_rating _) as [r|] eqn:Hr; [right | by left].
    exists r. split; [done |].
    apply first_rating_some in Hr as (before & w & after & Hmap & _).
    apply (rating_map_range w). rewrite Hmap. apply in_or_app. right. by left.
  - rewrite lookup_insert_eq. unfold availability_entry.
    destruct (availability_tag book_element); [right | by left].
    cbv zeta. destruct (in_stock_text _); [eauto |].
    destruct (out_of_stock_text _); eauto.
Qed.

(** X3: the Title of a dict is the [title] attribute of the link (the
    empty string when the link has none) with the white space at its two
    ends removed and nothing else changed: the attribute is the Title
    between two runs of white space, and the Title neither starts nor
    ends with white space. *)
Theorem X3_title_is_the_trimmed_attribute (book_element : element)
    (book_data : gmap string (value float_t)) :
  extract_book_data book_element = Some book_data ->
  exists a title pre post,
    title_link book_element = Some a
    /\ book_data !! "Title" = Some (VStr title)
    /\ get a "title" EmptyString = pre ++ title ++ post
    /\ all_space pre = true /\ all_space post = true
    /\ (forall c r, title = String c r -> isspace c = false)
    /\ (forall r c, title = r ++ String c EmptyString -> isspace c = false).
Proof.
  intros (a & url & Ha & _ & Htitle & _)%extract_book_data_url.
  destruct (strip_spec (get a "title" EmptyString))
    as ((pre & post & Hs & Hpre & Hpost) & Hhead & Hlast).
  exists a, (strip (get a "title" EmptyString)), pre, post.
  by repeat split.
Qed.

(** ** Further properties of the crawl *)

(** A crawl that ends has made some number [k] of passes: it holds the
    books of these passes in order, has issued two requests in each, and
    has slept after each but the last. *)
Lemma while_loop_passes (fuel : nat) (c c' : crawl) :
  while_loop fuel c = Some c' ->
  exists k, k <= fuel
    /\ (k = 0 <-> truthy_url (current_url c) = None)
    /\ length (page_books_of k c) = k
    /\ all_books c' = (all_books c ++ concat (page_books_of k c))%list
    /\ requests c' = 2 * k + requests c
    /\ slept fuel c = request_delay * (k - 1).
Proof.
  revert c. induction fuel as [|fuel IH]; intros c.
  - cbn [while_loop slept].
    destruct (truthy_url (current_url c)) as [url|] eqn:Hurl; [done |].
    intros [= <-]. exists 0. rewrite app_nil_r. repeat split; done.
  - cbn [while_loop slept].
    destruct (truthy_url (current_url c)) as [url|] eqn:Hurl.
    + rewrite loop_body_eq. cbv zeta.
      destruct (net (S (requests c)) url) as [soup|] eqn:Hnet.
      * intros (k & Hle & Hzero & Hlen & Hbooks & Hreq & Hslept)%IH.
        exists (S k). cbn [page_books_of]. rewrite Hurl, loop_body_eq, Hnet.
        cbv zeta. split; [lia |]. split; [by split |].
        split; [simpl; by rewrite Hlen |].
        split; [by rewrite Hbooks; simpl; rewrite app_assoc |].
        split; [simpl in *; lia |].
        rewrite Hslept. unfold pass_sleep, request_delay. simpl current_url in *.
        destruct (truthy_url (get_next_page_url soup url)) eqn:Hnext.
        -- destruct k; [discriminate (proj1 Hzero eq_refl) | lia].
        -- rewrite (proj2 Hzero eq_refl). lia.
      * intros [= <-]. exists 1. cbn [page_books_of].
        rewrite Hurl, loop_body_eq, Hnet. cbv zeta.
        split; [lia |]. split; [by split |]. split; [done |].
        split; [simpl; by rewrite app_nil_r |]. split; [simpl; lia |].
        unfold pass_sleep, request_delay. lia.
    + intros [= <-]. exists 0. rewrite app_nil_r. repeat split; (done || lia).
Qed.

(** X4: whenever the crawl ends, it has made some number of passes, at
    most the fuel; its result is what [scrape_page] returned in these
    passes, concatenated in visit order, and it has issued exactly two
    requests in each pass. *)
Theorem X4_ended_crawl_is_the_pages_in_order (fuel : nat) (c : crawl) :
  while_loop fuel crawl_start = Some c ->
  exists k, k <= fuel
    /\ length (page_books_of k crawl_start) = k
    /\ scrape_all_pages fuel = Some (concat (page_books_of k crawl_start))
    /\ requests c = 2 * k.
Proof.
  intros H. pose proof H as (k & Hle & _ & Hlen & Hbooks & Hreq & _)%while_loop_passes.
  exists k. split; [done |]. split; [done |].
  unfold scrape_all_pages. rewrite H. simpl in *.
  split; [by rewrite Hbooks | lia].
Qed.

(** X5: the crawl sleeps between two pages and at no other time: a crawl
    that ends after [k] passes, each of two requests, has slept
    [request_delay] seconds [k - 1] times, and not at all when it made no
    pass or one. *)
Theorem X5_crawl_sleeps_between_pages_only (fuel : nat) (c : crawl) :
  while_loop fuel crawl_start = Some c ->
  exists k, requests c = 2 * k
    /\ slept fuel crawl_start = request_delay * (k - 1).
Proof.
  intros (k & _ & _ & _ & _ & Hreq & Hslept)%while_loop_passes.
  exists k. split; [simpl in Hreq; lia | done].
Qed.

(** Where a scraped book comes from. *)
Lemma scrape_page_origin (url : string) (n : nat)
    (book_data : gmap string (value float_t)) :
  book_data ∈ fst (scrape_page url n) ->
  exists soup article,
    net n url = Some soup
    /\ article ∈ find_all "article" (Some "product_pod") soup
    /\ extract_book_data article = Some book_data.
Proof.
  unfold scrape_page, get_page. destruct (net n url) as [soup|]; cbn [fst].
  - rewrite extract_books_omap. cbn [app].
    intros (article & Hin & Hd)%list_elem_of_omap. by exists soup, article.
  - by intros ?%elem_of_nil.
Qed.

Lemma while_loop_Forall (P : gmap string (value float_t) -> Prop)
    (fuel : nat) (c c' : crawl) :
  (forall url n book_data, book_data ∈ fst (scrape_page url n) -> P book_data) ->
  Forall P (all_books c) ->
  while_loop fuel c = Some c' ->
  Forall P (all_books c').
Proof.
  intros Hpage. revert c. induction fuel as [|fuel IH]; intros c Hc;
    cbn [while_loop]; destruct (truthy_url (current_url c)) as [url|];
    try done; try by intros [= <-].
  rewrite loop_body_eq. cbv zeta.
  assert (Forall P (all_books c ++ fst (scrape_page url (requests c)))) as Hall.
  { apply Forall_app. split; [done |]. apply Forall_forall. apply Hpage. }
  destruct (net (S (requests c)) url); [by apply IH | by intros [= <-]].
Qed.

(** Every book the crawl holds when it ends was either held at the
    start or scraped in one of its passes, from the page that the request
    of [scrape_page] in that pass was answered with. *)
Lemma while_loop_origin (fuel : nat) (c c' : crawl)
    (book_data : gmap string (value float_t)) :
  while_loop fuel c = Some c' ->
  book_data ∈ all_books c' ->
  book_data ∈ all_books c
  \/ exists j cj url soup article,
       after_passes j c = Some cj
       /\ truthy_url (current_url cj) = Some url
       /\ net (requests cj) url = Some soup
       /\ article ∈ find_all "article" (Some "product_pod") soup
       /\ extract_book_data article = Some book_data.
Proof.
  revert c. induction fuel as [|fuel IH]; intros c; cbn [while_loop];
    destruct (truthy_url (current_url c)) as [url|] eqn:Hurl;
    try done; try (intros [= <-]; by left).
  assert (forall b, b ∈ (all_books c ++ fst (scrape_page url (requests c)))%list ->
            b ∈ all_books c
            \/ exists j cj url soup article,
                 after_passes j c = Some cj
                 /\ truthy_url (current_url cj) = Some url
                 /\ net (requests cj) url = Some soup
                 /\ article ∈ find_all "article" (Some "product_pod") soup
                 /\ extract_book_data article = Some b) as Hpass.
  { intros b [Hb | Hb]%elem_of_app; [by left | right].
    apply scrape_page_origin in Hb as (soup & article & Hnet & Hin & Hd).
    by exists 0, c, url, soup, article. }
  pose proof (loop_body_eq url c) as Hbody. cbv zeta in Hbody.
  destruct (net (S (requests c)) url) as [soup'|] eqn:Hnet';
    rewrite Hbody.
  - intros Hloop Hin.
    destruct (IH _ Hloop Hin) as [Hb | (j & cj & u & soup & article & Hj & H)].
    + by apply Hpass.
    + right. exists (S j), cj, u, soup, article. split; [| done].
      cbn [after_passes]. by rewrite Hurl, Hbody.
  - intros [= <-]. apply Hpass.
Qed.

(** X6: the crawl invents nothing: every book of its result is the dict
    [extract_book_data] returns for a [product_pod] article of the page
    that one of its own requests was answered with, namely the request of
    [scrape_page] in some pass [j + 1], which is request [2 * j] of the
    session and asks for the URL the crawl stands at after [j] passes.  So
    every book of the result has exactly the five keys, and the writer of
    [save_to_csv] accepts it. *)
Theorem X6_crawled_books_come_from_served_articles (fuel : nat)
    (books : list (gmap string (value float_t))) :
  scrape_all_pages fuel = Some books ->
  forall book_data, book_data ∈ books ->
    (exists j cj url soup article,
       j < fuel
       /\ after_passes j crawl_start = Some cj
       /\ truthy_url (current_url cj) = Some url
       /\ requests cj = 2 * j
       /\ net (2 * j) url = Some soup
       /\ article ∈ find_all "article" (Some "product_pod") soup
       /\ extract_book_data article = Some book_data)
    /\ dom book_data = list_to_set fieldnames
    /\ exists cells, dict_to_list book_data = Return cells.
Proof.
  unfold scrape_all_pages.
  destruct (while_loop fuel crawl_start) as [c|] eqn:Hloop; [| done].
  intros [= <-] book_data Hin.
  destruct (while_loop_origin _ _ _ _ Hloop Hin)
    as [Hempty | (j & cj & url & soup & article & Hj & Hurl & Hnet & Hart & Hd)];
    [by apply elem_of_nil in Hempty |].
  pose proof (after_passes_requests _ _ _ Hj) as Hreq. simpl in Hreq.
  rewrite Nat.add_0_r in Hreq.
  assert (j < fuel) as Hlt.
  { destruct (Nat.lt_ge_cases j fuel) as [|Hge]; [done | exfalso].
    pose proof (while_loop_after_passes j 0 _ _ Hj) as Hrun.
    rewrite Nat.add_0_r in Hrun.
    assert (while_loop j crawl_start = None) as Hnone
      by (rewrite Hrun; cbn [while_loop]; by rewrite Hurl).
    destruct (while_loop j crawl_start) as [c0|] eqn:Hj0; [done |].
    destruct (while_loop fuel crawl_start) as [c1|] eqn:Hf; [| done].
    pose proof (while_loop_mono fuel j crawl_start c1 Hf Hge) as Hmono.
    congruence. }
  split.
  - exists j, cj, url, soup, article. rewrite Hreq in Hnet.
    repeat split; done.
  - pose proof (extract_book_data_dom _ _ Hd) as Hdom. split; [done |].
    unfold dict_to_list. rewrite Hdom.
    destruct (decide _) as [_|Hn]; [eauto | by destruct Hn].
Qed.

(** X7: the crawl keeps no record of the pages it has seen.  When the
    network always answers a URL with a page whose next link resolves to
    that same URL, a crawl that stands at this URL never ends, whatever
    the fuel, and each pass adds the books of the page once more. *)
Theorem X7_next_link_to_itself_never_ends (url : string) (soup : element)
    (c : crawl) :
  (forall n, net n url = Some soup) ->
  get_next_page_url soup url = Some url ->
  url <> EmptyString ->
  current_url c = Some url ->
  (forall fuel, while_loop fuel c = None)
  /\ (forall k, after_passes k c =
        Some (Crawl (Some url)
                (all_books c ++
                 concat (replicate k
                           (omap extract_book_data
                              (find_all "article" (Some "product_pod") soup))))
                (2 * k + requests c))).
Proof.
  intros Hnet Hnext Hurl Hc.
  assert (truthy_url (Some url) = Some url) as Htruthy by (by destruct url).
  assert (forall n, fst (scrape_page url n) =
            omap extract_book_data (find_all "article" (Some "product_pod") soup))
    as Hpage.
  { intros n. unfold scrape_page, get_page. rewrite Hnet. cbn [fst].
    by rewrite extract_books_omap. }
  split.
  - intros fuel. revert c Hc. induction fuel as [|fuel IH]; intros c Hc;
      cbn [while_loop]; rewrite Hc, Htruthy; [done |].
    rewrite loop_body_eq, Hnet, Hnext. cbv beta iota zeta. by apply IH.
  - intros k. revert c Hc. induction k as [|k IH]; intros c Hc.
    + cbn [after_passes replicate concat]. rewrite app_nil_r.
      destruct c as [u b r]. simpl in *. by subst u.
    + cbn [after_passes]. rewrite Hc, Htruthy, loop_body_eq, Hnet, Hnext.
      cbv beta iota zeta. rewrite IH by done. cbn [all_books requests replicate concat].
      rewrite Hpage, <- app_assoc. do 2 f_equal. lia.
Qed.

(** X8: on a network that answers a URL the same way at every request,
    the crawl halts at the first page whose fetch fails and returns
    exactly the books of the pages before it, having asked for the failing
    page twice. *)
Theorem X8_steady_network_halts_at_failed_fetch (k : nat) (c : crawl)
    (url : string) :
  steady ->
  after_passes k crawl_start = Some c ->
  truthy_url (current_url c) = Some url ->
  net (requests c) url = None ->
  forall fuel, k < fuel ->
    scrape_all_pages fuel = Some (concat (page_books_of k crawl_start))
    /\ requests <$> while_loop fuel crawl_start = Some (2 * S k).
Proof.
  intros Hsteady Hk Hurl Hnet fuel Hlt.
  assert (net (S (requests c)) url = None) as Hnet'
    by (by rewrite (Hsteady _ (requests c))).
  pose proof (after_passes_all_books _ _ _ Hk) as Hbooks.
  pose proof (after_passes_requests _ _ _ Hk) as Hreq.
  simpl in Hbooks, Hreq.
  assert (while_loop fuel crawl_start =
          Some (Crawl (Some url) (concat (page_books_of k crawl_start))
                  (2 * S k))) as Hloop.
  { apply (while_loop_mono (k + 1)); [| lia].
    rewrite (while_loop_after_passes k 1 _ _ Hk).
    rewrite (while_loop_fetch_fails 0 _ _ Hurl Hnet').
    rewrite (scrape_page_fetch_fails _ _ Hnet), app_nil_r, Hbooks.
    do 2 f_equal. lia. }
  unfold scrape_all_pages. by rewrite Hloop.
Qed.

(** ** Further properties of the CSV file and of [run] *)

Lemma write_rows_stops (i : nat) (written : list (gmap string (value float_t)))
    (book : gmap string (value float_t)) (rest : list (gmap string (value float_t)))
    (content : string) :
  (forall b, In b written -> dom b ⊆ list_to_set fieldnames) ->
  (forall j, j < length written -> can_write (i + j) = true) ->
  ~ dom book ⊆ list_to_set fieldnames ->
  write_rows i (written ++ book :: rest) content
  = (Raise ValueError, content ++ join EmptyString (List.map data_row written)).
Proof.
  revert i content. induction written as [|b written IH]; intros i content Hdom Hw Hstop.
  - cbn [app write_rows List.map join]. rewrite append_nil_r.
    unfold writerow_dict, dict_to_list.
    by destruct (decide _) as [Hk|Hk].
  - cbn [app write_rows List.map]. rewrite join_empty_cons.
    unfold writerow_dict, dict_to_list.
    destruct (decide _) as [Hk|Hk]; [| by destruct Hk; apply Hdom; left].
    pose proof (Hw 0 ltac:(simpl; lia)) as Hw0. rewrite Nat.add_0_r in Hw0.
    rewrite Hw0, IH, append_assoc; [done | | | done].
    + intros b' Hb'. apply Hdom. by right.
    + intros j Hj. rewrite Nat.add_succ_comm. apply Hw. simpl. lia.
Qed.

(** X9: a dict with a key that is no column stops the writing and leaves
    a shorter file behind.  When the file opens, the header and the rows
    of the books before that dict meet no disk fault, [save_to_csv]
    returns false, and the file, closed on the way out of the [with]
    block, holds the header and the rows of the books before that dict,
    and nothing of that dict or of the books after it. *)
Theorem X9_key_fault_leaves_the_rows_written_so_far
    (written : list (gmap string (value float_t)))
    (book : gmap string (value float_t))
    (rest : list (gmap string (value float_t))) (filename : string) :
  can_open filename = true ->
  (forall b, In b written -> dom b ⊆ list_to_set fieldnames) ->
  (forall i, i <= length written -> can_write i = true) ->
  ~ dom book ⊆ list_to_set fieldnames ->
  save_to_csv (written ++ book :: rest) filename =
    (Return false,
     Some ("Title,Price,Rating,Availability,URL" ++ CRLF ++
           join EmptyString (List.map data_row written))).
Proof.
  intros Hopen Hdom Hw Hstop. unfold save_to_csv, save_to_csv_try.
  destruct (written ++ book :: rest)%list as [|b0 l] eqn:Hbooks;
    [by destruct written |].
  rewrite Hopen, (Hw 0 ltac:(lia)), <- Hbooks.
  rewrite (write_rows_stops 1 written book rest (csv.writerow fieldnames));
    [done | done | | done].
  intros j Hj. apply Hw. lia.
Qed.

Lemma count_lines_writerow (fields : list string) :
  count_lines (csv.writerow fields) = S (list_sum (List.map count_lines fields)).
Proof.
  unfold csv.writerow. rewrite count_lines_app.
  change (count_lines CRLF) with 1.
  enough (count_lines (join (String csv.delimiter EmptyString)
                         (List.map csv.field fields))
          = list_sum (List.map count_lines fields)) as -> by lia.
  induction fields as [|s fields IH]; [done |].
  change (list_sum (List.map count_lines (s :: fields)))
    with (count_lines s + list_sum (List.map count_lines fields)).
  cbn [List.map]. rewrite <- IH.
  destruct (List.map csv.field fields) as [|f fs] eqn:Hmap.
  - cbn [join count_lines]. rewrite count_lines_field. lia.
  - cbn [join]. rewrite !count_lines_app, count_lines_field.
    change (count_lines (String csv.delimiter EmptyString)) with 0. lia.
Qed.

(** X10: a file written with success has one line for the header, one
    for each book, and one more for every line feed held by a cell: the
    writer keeps the line feeds of the cells, and adds none but the one
    that ends each row. *)
Theorem X10_lines_are_rows_plus_line_feeds_of_cells
    (books_data : list (gmap string (value float_t))) (filename content : string) :
  save_to_csv books_data filename = (Return true, Some content) ->
  count_lines content =
    S (length books_data) + list_sum (List.map cell_line_feeds books_data).
Proof.
  unfold save_to_csv, save_to_csv_try.
  destruct books_data as [|book books]; [done |].
  destruct (can_open filename); [| done].
  destruct (can_write 0); [| done].
  destruct (write_rows 1 (book :: books) _) as [[u|e] c] eqn:Hrows; [| done].
  intros [= ->]. apply write_rows_return in Hrows. rewrite Hrows.
  rewrite count_lines_app.
  change (count_lines (csv.writerow fieldnames)) with 1.
  generalize (book :: books). clear. intros books.
  enough (count_lines (join EmptyString (List.map data_row books))
          = length books + list_sum (List.map cell_line_feeds books)) by lia.
  induction books as [|b books IH]; [done |].
  change (list_sum (List.map cell_line_feeds (b :: books)))
    with (cell_line_feeds b + list_sum (List.map cell_line_feeds books)).
  cbn [List.map length]. rewrite join_empty_cons, count_lines_app, IH.
  assert (count_lines (data_row b) = S (cell_line_feeds b)) as ->; [| lia].
  unfold data_row, cell_line_feeds.
  by rewrite count_lines_writerow, List.map_map.
Qed.

Lemma doubled_quotes_inj (s1 s2 : string) :
  replace_char csv.quotechar
    (String csv.quotechar (String csv.quotechar EmptyString)) s1
  = replace_char csv.quotechar
      (String csv.quotechar (String csv.quotechar EmptyString)) s2 ->
  s1 = s2.
Proof.
  revert s2. induction s1 as [|a s1 IH]; intros [|b s2]; cbn [replace_char].
  - done.
  - destruct (Ascii.eqb b csv.quotechar); done.
  - destruct (Ascii.eqb a csv.quotechar); done.
  - destruct (Ascii.eqb_spec a csv.quotechar) as [->|Ha];
      destruct (Ascii.eqb_spec b csv.quotechar) as [->|Hb].
    + rewrite !append_cons. intros [= H]. by rewrite (IH s2 H).
    + rewrite !append_cons. intros [= <- _]. done.
    + rewrite !append_cons. intros [= -> _]. done.
    + intros [= -> H]. by rewrite (IH s2 H).
Qed.

Lemma length_append (a b : string) :
  String.length (a ++ b) = String.length a + String.length b.
Proof.
  induction a as [|x a IH]; [done |].
  rewrite append_cons. cbn [String.length]. by rewrite IH.
Qed.

Lemma append_inj_r (a b t : string) : a ++ t = b ++ t -> a = b.
Proof.
  intros H.
  assert (String.length a = String.length b) as Hlen.
  { apply (f_equal String.length) in H.
    rewrite !length_append in H. lia. }
  revert b H Hlen. induction a as [|x a IH]; intros [|y b]; try done.
  rewrite !append_cons. intros [= -> H] [= Hlen]. by rewrite (IH b H Hlen).
Qed.

Lemma needs_quotes_head (s : string) :
  csv.needs_quotes (String csv.quotechar s) = true.
Proof. reflexivity. Qed.

(** X11: the writer loses nothing of a cell: two cells that are written
    the same way hold the same text, whether they were quoted or not. *)
Theorem X11_written_field_determines_the_cell (s1 s2 : string) :
  csv.field s1 = csv.field s2 <-> s1 = s2.
Proof.
  split; [| by intros ->]. unfold csv.field.
  destruct (csv.needs_quotes s1) eqn:H1; destruct (csv.needs_quotes s2) eqn:H2.
  - intros [= H]. apply append_inj_r in H. by apply doubled_quotes_inj.
  - intros <-. by rewrite needs_quotes_head in H2.
  - intros ->. by rewrite needs_quotes_head in H1.
  - done.
Qed.

Lemma save_to_csv_true (books_data : list (gmap string (value float_t)))
    (filename : string) :
  fst (save_to_csv books_data filename) = Return true <->
  books_data <> []
  /\ can_open filename = true
  /\ (forall i, i <= length books_data -> can_write i = true)
  /\ (forall book, In book books_data -> dom book ⊆ list_to_set fieldnames).
Proof.
  unfold save_to_csv, save_to_csv_try.
  destruct books_data as [|book books]; [by split; [| intros [? _]] |].
  destruct (can_open filename); [| by split; [| intros (_ & ? & _)]].
  destruct (can_write 0) eqn:Hw0.
  - pose proof (write_rows_raise 1 (book :: books)
                  (csv.writerow fieldnames)) as Hrows.
    destruct (write_rows 1 (book :: books) _) as [[u|e] content];
      simpl fst in *.
    + split; [intros _ | done]. split; [done |]. split; [done |]. split.
      * intros i Hi. destruct (can_write i) eqn:Hwi; [done |]. exfalso.
        assert (exists e : exn, Return u = Raise e) as [e He]; [| done].
        apply Hrows. left. destruct i as [|i]; [congruence |].
        exists i. split; [simpl in *; lia | done].
      * intros b Hb. destruct (decide (dom b ⊆ list_to_set fieldnames)) as [|Hn];
          [done |]. exfalso.
        assert (exists e : exn, Return u = Raise e) as [e He]; [| done].
        apply Hrows. right. by exists b.
    + split; [done |]. intros (_ & _ & Hw & Hdom). exfalso.
      destruct (proj1 Hrows) as [(j & Hj & Hwj) | (b & Hb & Hn)]; [by exists e | |].
      * rewrite Hw in Hwj; [done | simpl in *; lia].
      * by apply Hn, Hdom.
  - split; [done |]. intros (_ & _ & Hw & _). by rewrite Hw in Hw0 by lia.
Qed.

(** Every book a crawl holds when it ends has the five keys. *)
Lemma while_loop_books_dom (fuel : nat) (c : crawl) :
  while_loop fuel crawl_start = Some c ->
  forall book, In book (all_books c) -> dom book = list_to_set fieldnames.
Proof.
  intros Hloop book Hin%list_elem_of_In. revert book Hin. apply Forall_forall.
  apply (while_loop_Forall _ fuel crawl_start c); [| done | done].
  intros url n b (soup & article & _ & _ & Hd)%scrape_page_origin.
  by apply (extract_book_data_dom article).
Qed.

Lemma scrape_page_books_dom (url : string) (n : nat) :
  forall book, In book (fst (scrape_page url n)) ->
               dom book = list_to_set fieldnames.
Proof.
  intros book (soup & article & _ & _ & Hd)%list_elem_of_In%scrape_page_origin.
  by apply (extract_book_data_dom article).
Qed.

Lemma run_save_spec (books_data : list (gmap string (value float_t))) (n : nat) :
  (forall book, In book books_data -> dom book = list_to_set fieldnames) ->
  let r := run_save books_data n in
  (exists b, run_returned r = Return b)
  /\ (run_returned r = Return true <->
      books_data <> []
      /\ can_open "books_data.csv" = true
      /\ forall i, i <= length books_data -> can_write i = true)
  /\ (books_data = [] -> run_file r = None)
  /\ run_books_data r = books_data
  /\ run_requests r = n.
Proof.
  intros Hdom. unfold run_save. destruct books_data as [|book books].
  - cbn. split; [eauto |]. split; [| done]. by split; [| intros [? _]].
  - pose proof (save_to_csv_true (book :: books) "books_data.csv") as Htrue.
    destruct (save_to_csv_returns (book :: books) "books_data.csv") as [b Hb].
    destruct (save_to_csv (book :: books) "books_data.csv") as [[b'|e] file];
      simpl fst in *; [| done].
    cbn. split; [eauto |]. split; [| done]. rewrite Htrue. split.
    + intros (? & ? & ? & _). done.
    + intros (? & ? & ?). repeat split; try done.
      intros bk Hbk. by rewrite (Hdom bk Hbk).
Qed.

(** X12: [run] never raises.  It leaves in [self.books_data] what was
    scraped, the page at [self.base_url] alone for one request or the
    whole crawl, and it returns true exactly when at least one book was
    scraped, [books_data.csv] opens, and the header and every row are
    written: a scraped book never makes the writer fail.  When nothing
    was scraped the file is not opened. *)
Theorem X12_run_succeeds_exactly_when_books_are_saved (scrape_all : bool)
    (fuel : nat) (r : run_result) :
  run scrape_all fuel = Some r ->
  (exists b, run_returned r = Return b)
  /\ (run_returned r = Return true <->
      run_books_data r <> []
      /\ can_open "books_data.csv" = true
      /\ forall i, i <= length (run_books_data r) -> can_write i = true)
  /\ (run_books_data r = [] -> run_file r = None)
  /\ (if scrape_all
      then scrape_all_pages fuel = Some (run_books_data r)
      else run_books_data r = fst (scrape_page base_url 0)
           /\ run_requests r = 1).
Proof.
  unfold run. destruct scrape_all.
  - destruct (while_loop fuel crawl_start) as [c|] eqn:Hloop; [| done].
    intros [= <-].
    destruct (run_save_spec (all_books c) (requests c)
                (while_loop_books_dom fuel c Hloop))
      as (Hret & Htrue & Hfile & Hbooks & Hreq).
    rewrite Hbooks in *. repeat split; try done; try apply Htrue; try done.
    unfold scrape_all_pages. by rewrite Hloop.
  - pose proof (scrape_page_requests base_url 0) as Hn.
    pose proof (scrape_page_books_dom base_url 0) as Hdom.
    destruct (scrape_page base_url 0) as [books n]. simpl in Hn, Hdom. subst n.
    intros [= <-].
    destruct (run_save_spec books 1 Hdom) as (Hret & Htrue & Hfile & Hbooks & Hreq).
    rewrite Hbooks in *. repeat split; try done; try apply Htrue; done.
Qed.

(** X13: on a network that answers a URL the same way at every request,
    and a start page without a next indicator, the whole crawl and the
    single page mode scrape the same books, return the same boolean and
    write the same file; the crawl asks for the page twice, the single
    page mode once. *)
Theorem X13_one_page_site_both_modes_agree (soup : element) (fuel : nat) :
  steady ->
  base_url <> EmptyString ->
  net 0 base_url = Some soup ->
  find "li" (Some "next") soup = None ->
  exists r_all r_one,
    run true (S fuel) = Some r_all
    /\ run false fuel = Some r_one
    /\ run_books_data r_all = run_books_data r_one
    /\ run_returned r_all = run_returned r_one
    /\ run_file r_all = run_file r_one
    /\ run_requests r_all = 2
    /\ run_requests r_one = 1.
Proof.
  intros Hsteady Hbase Hnet Hnext.
  assert (truthy_url (current_url crawl_start) = Some base_url) as Hurl
    by (simpl; by destruct base_url).
  assert (net 1 base_url = Some soup) as Hnet1
    by (by rewrite (Hsteady 1 0)).
  unfold run.
  rewrite (while_loop_no_next fuel crawl_start base_url soup Hurl Hnet1 Hnext).
  pose proof (scrape_page_requests base_url 0) as Hn.
  simpl all_books. simpl requests.
  destruct (scrape_page base_url 0) as [books n]. simpl in Hn. subst n.
  eexists _, _. split; [reflexivity |]. split; [reflexivity |].
  simpl fst. unfold run_save. destruct books as [|b books]; [done |].
  by destruct (save_to_csv (b :: books) "books_data.csv") as [[?|?] ?].
Qed.

End Scraper.

Arguments crawl float_t : clear implicits.
Arguments pass float_t : clear implicits.
Arguments run_result float_t : clear implicits.

(** ** The price cell *)

(** C5: for an item that has a title link, whose address [urljoin]
    accepts, and a price node, the extractor returns a dict, which
    [scrape_page] keeps.  Its Price is what [float] makes of the trimmed
    text of the node with the pound sign removed: the text of the node is
    the trimmed text between two runs of white space, the trimmed text has
    no white space at either end, and [float] is given the characters of
    the trimmed text that are not the pound sign, in order.  So a node
    that reads a pound sign and 51.77, with or without white space
    around, is parsed from 51.77.  When [float] rejects the text the Price
    is null.  The other four entries do not depend on the parse: they are
    the same whatever [float] answers. *)
Theorem C5_price_is_the_parsed_text_or_null
    (urljoin : string -> string -> result string) {float_t : Type}
    (float float' : string -> option float_t) (base_url : string)
    (book_element a price_tag : element) (joined : string) :
  title_link book_element = Some a ->
  urljoin base_url (get a "href" EmptyString) = Return joined ->
  find "p" (Some "price_color") book_element = Some price_tag ->
  exists (book_data : gmap string (value float_t))
         (pre trimmed post parsed : string),
    extract_book_data urljoin float base_url book_element = Some book_data
    /\ extract_books urljoin float base_url [book_element] [] = [book_data]
    /\ get_text price_tag = pre ++ trimmed ++ post
    /\ all_space pre = true /\ all_space post = true
    /\ (forall c r, trimmed = String c r -> isspace c = false)
    /\ (forall r c, trimmed = r ++ String c EmptyString -> isspace c = false)
    /\ list_ascii_of_string parsed =
         List.filter (fun c => negb (Ascii.eqb c pound))
                     (list_ascii_of_string trimmed)
    /\ book_data !! "Price" =
         Some (match float parsed with
               | Some x => VFloat x
               | None => VNone
               end)
    /\ (forall pre' post',
          get_text price_tag = pre' ++ String pound "51.77" ++ post' ->
          all_space pre' = true -> all_space post' = true ->
          book_data !! "Price" =
            Some (match float "51.77" with
                  | Some x => VFloat x
                  | None => VNone
                  end))
    /\ exists book_data' : gmap string (value float_t),
         extract_book_data urljoin float' base_url book_element = Some book_data'
         /\ forall key, key <> "Price" -> book_data !! key = book_data' !! key.
Proof.
  intros Ha Hurl Hprice.
  pose proof (extract_book_data_link urljoin float base_url _ _ _ Ha Hurl) as H.
  pose proof (extract_book_data_link urljoin float' base_url _ _ _ Ha Hurl) as H'.
  assert (price_entry float book_element =
          match float (replace_char pound EmptyString
                         (strip (get_text price_tag))) with
          | Some x => VFloat x
          | None => VNone
          end) as Hentry by (unfold price_entry; by rewrite Hprice).
  destruct (strip_spec (get_text price_tag))
    as ((pre & post & Hs & Hpre & Hpost) & Hhead & Hlast).
  eexists. exists pre, (strip (get_text price_tag)), post,
    (replace_char pound EmptyString (strip (get_text price_tag))).
  split; [exact H |]. split; [by apply extract_books_single |].
  split; [exact Hs |]. split; [exact Hpre |]. split; [exact Hpost |].
  split; [exact Hhead |]. split; [exact Hlast |].
  split; [apply replace_char_removes |].
  split; [| split].
  - rewrite !lookup_insert_ne, lookup_insert_eq by done. by rewrite Hentry.
  - intros pre' post' Htext Hpre' Hpost'.
    rewrite !lookup_insert_ne, lookup_insert_eq by done.
    rewrite Hentry, Htext.
    by rewrite (strip_padded pre' (String pound "51.77") post' Hpre' Hpost').
  - eexists. split; [exact H' |]. intros key Hkey.
    rewrite !lookup_insert. repeat case_decide; done.
Qed.

(** ** The theorems at work on the sample catalogue *)

Lemma C1_empty_title_witness :
  urljoin_checked start_url "catalogue/soumission_998/index.html"
    = Return "http://books.toscrape.com/catalogue/soumission_998/index.html"
  /\ exists book_data : gmap string (value string),
       extract_book_data urljoin_checked float_literal start_url untitled_item
         = Some book_data
       /\ book_data !! "Title" = Some (VStr EmptyString)
       /\ extract_books urljoin_checked float_literal start_url
            [untitled_item] [] = [book_data].
Proof.
  split; [reflexivity |].
  exact (C1_link_without_title_gives_empty_title urljoin_checked float_literal
           start_url _ eq_refl).
Defined.

Lemma C5_price_witness :
  find "p" (Some "price_color") padded_item
    = Some (Tag "p" [] ["price_color"]
              [NavigableString (" " ++ String pound "51.77" ++ "
    ")])
  /\ all_space " " = true
  /\ all_space "
    " = true
  /\ exists book_data : gmap string (value string),
       extract_book_data urljoin_checked float_literal start_url padded_item
         = Some book_data
       /\ book_data !! "Price" = Some (VFloat "51.77").
Proof.
  split; [reflexivity |]. split; [reflexivity |]. split; [reflexivity |].
  destruct (C5_price_is_the_parsed_text_or_null urljoin_checked
              float_literal float_literal start_url padded_item _ _ _
              eq_refl eq_refl eq_refl)
    as (book_data & pre & trimmed & post & parsed & H & _ & _ & _ & _ & _ & _
        & _ & _ & Hprice & _).
  exists book_data. split; [exact H |].
  exact (Hprice " " "
    " eq_refl eq_refl eq_refl).
Defined.

Lemma C2_url_witness :
  net_steady 0 page_2_url = Some page_2
  /\ urljoin_checked start_url "in-her-wake_980/index.html"
     = Return "http://books.toscrape.com/in-her-wake_980/index.html"
  /\ exists book_data : gmap string (value string),
       fst (scrape_page urljoin_checked float_literal net_steady start_url
              page_2_url 0) = [book_data]
       /\ book_data !! "URL" =
            Some (VStr "http://books.toscrape.com/in-her-wake_980/index.html").
Proof.
  split; [reflexivity |]. split; [reflexivity |].
  exact (C2_href_is_joined_to_base_url_whatever_the_page urljoin_checked
           float_literal net_steady start_url page_2_url 0 _ eq_refl eq_refl).
Defined.

(** Joined to the address of its own page, the same href leads into the
    [catalogue] directory, where the book is. *)
Example href_joined_to_page_2 :
  urljoin_checked page_2_url "in-her-wake_980/index.html"
  = Return "http://books.toscrape.com/catalogue/in-her-wake_980/index.html".
Proof. reflexivity. Qed.

Lemma C4_rating_witness :
  occurs "Three" "star-rating Three"
  /\ ~ occurs "One" "star-rating Three"
  /\ ~ occurs "Two" "star-rating Three"
  /\ extract_rating "star-rating Three" = Some 3%Z.
Proof.
  assert (occurs "Three" "star-rating Three") as H3
    by (by exists "star-rating ", EmptyString).
  assert (~ occurs "One" "star-rating Three") as H1
    by (by apply contains_false).
  assert (~ occurs "Two" "star-rating Three") as H2
    by (by apply contains_false).
  split; [exact H3 |]. split; [exact H1 |]. split; [exact H2 |].
  exact (proj2 (proj2 (proj2
           (C4_rating_is_first_capitalised_word "star-rating Three")))
           H3 H1 H2).
Defined.


Lemma C9_file_witness :
  exists content : string,
    save_to_csv id any_file disk_ok cut_at_20 [attic_book; wake_book]
      "books_data.csv"
      = (Return true, Some content)
    /\ count_lines content = 3.
Proof.
  eexists. split; [vm_compute; reflexivity |].
  apply (C9_file_is_header_then_one_row_per_book id any_file disk_ok cut_at_20
           [attic_book; wake_book] "books_data.csv" _ eq_refl).
  intros book key [<- | [<- | []]]
    [<- | [<- | [<- | [<- | [<- | []]]]]]; reflexivity.
Defined.

Lemma C10_keys_witness :
  extract_book_data urljoin_checked float_literal start_url attic_item
    = Some attic_book
  /\ dom attic_book = {["Title"; "Price"; "Rating"; "Availability"; "URL"]}
  /\ exists cells : list string,
       dict_to_list id attic_book = Return cells /\ length cells = 5.
Proof.
  assert (extract_book_data urljoin_checked float_literal start_url attic_item
          = Some attic_book) as H by (vm_compute; reflexivity).
  split; [exact H |].
  destruct (C10_extracted_dict_has_the_five_keys urljoin_checked float_literal
              id start_url attic_item attic_book H) as (Hdom & _ & Hcells).
  split; [exact Hdom | exact Hcells].
Defined.

(** ** Where the code and the specification part *)

(** C3 (the code departs from the claim): the first request for the start
    URL fails, so that [scrape_page] returns nothing for it, and yet the
    crawl does not halt there with an empty result.  The loop asks for the
    start URL again, is answered, follows the next link and returns the
    book of the second page; the book of the first page is lost.  A failed
    fetch halts the crawl only when it is the loop's own. *)
Theorem C3_failed_fetch_does_not_halt_the_crawl :
  net_flaky 0 start_url = None
  /\ fst (scrape_page urljoin_checked float_literal net_flaky start_url
            start_url 0) = []
  /\ while_loop urljoin_checked float_literal net_flaky start_url 2
       (crawl_start start_url) = Some (Crawl None [wake_book] 4)
  /\ scrape_all_pages urljoin_checked float_literal net_flaky start_url 2
     = Some [wake_book].
Proof.
  split; [reflexivity |]. split; [reflexivity |].
  split; vm_compute; reflexivity.
Qed.

(** C7 (the code departs from the claim): the crawl reaches a page
    without a next indicator and ends after it, but its result is not the
    books of the pages visited.  The request of [scrape_page] for the page
    fails, the loop's own request for the same URL is answered with the
    page, which has no next link and holds one book, and the crawl ends
    with an empty result. *)
Theorem C7_last_page_is_left_without_its_books :
  net_late 0 start_url = None
  /\ net_late 1 start_url = Some page_2
  /\ find "li" (Some "next") page_2 = None
  /\ omap (extract_book_data urljoin_checked float_literal start_url)
       (find_all "article" (Some "product_pod") page_2) = [wake_book]
  /\ while_loop urljoin_checked float_literal net_late start_url 1
       (crawl_start start_url) = Some (Crawl None [] 2)
  /\ scrape_all_pages urljoin_checked float_literal net_late start_url 1
     = Some [].
Proof.
  split; [reflexivity |]. split; [reflexivity |]. split; [reflexivity |].
  split; [vm_compute; reflexivity |]. split; vm_compute; reflexivity.
Qed.

(** C4, as stated, fails: the word three matches the class string when
    letter case is set aside, and the rating is null all the same. *)
Lemma C4_counterexample_lower_case_word :
  word_matches_ignoring_case "three" "star-rating three" = true
  /\ extract_rating "star-rating three" = None.
Proof. split; reflexivity. Qed.

(** C8, as stated, fails: the list is not empty and the file opens, and
    the call returns false all the same, once because the disk refuses the
    first book's row, once because a dict carries a key that is no column
    of the file. *)
Lemma C8_counterexample_fault_after_open :
  any_file "books_data.csv" = true
  /\ [attic_book] <> []
  /\ fst (save_to_csv id any_file disk_full cut_at_20 [attic_book]
            "books_data.csv")
     = Return false
  /\ [foreign_book] <> []
  /\ fst (save_to_csv id any_file disk_ok cut_at_20 [foreign_book]
            "books_data.csv")
     = Return false.
Proof.
  split; [reflexivity |]. split; [done |]. split; [vm_compute; reflexivity |].
  split; [done | vm_compute; reflexivity].
Qed.

(** C9, as stated, fails: one book, scraped from an item whose title runs
    over two lines, is written with success into a file of three lines. *)
Lemma C9_counterexample_title_with_line_feed :
  extract_book_data urljoin_checked float_literal start_url two_line_item
    = Some two_line_book
  /\ exists content : string,
       save_to_csv id any_file disk_ok cut_at_20 [two_line_book]
         "books_data.csv"
         = (Return true, Some content)
       /\ length [two_line_book] = 1
       /\ count_lines content = 3.
Proof.
  split; [vm_compute; reflexivity |].
  eexists. split; [vm_compute; reflexivity |]. split; reflexivity.
Qed.

(** ** The further properties at work on the sample catalogue *)

Lemma X1_scrape_page_witness :
  net_mixed 0 start_url = Some page_mixed
  /\ find_all "article" (Some "product_pod") page_mixed
     = [bracket_item; attic_item; unlinked_item]
  /\ urljoin_checked start_url "http://[::1" = Raise ValueError
  /\ fst (scrape_page urljoin_checked float_literal net_mixed start_url
            start_url 0) = [attic_book]
  /\ ~ is_Some (extract_book_data urljoin_checked float_literal start_url
                  bracket_item)
  /\ ~ is_Some (extract_book_data urljoin_checked float_literal start_url
                  unlinked_item).
Proof.
  split; [reflexivity |]. split; [reflexivity |]. split; [reflexivity |].
  destruct (X1_scrape_page_keeps_every_dict urljoin_checked float_literal
              net_mixed start_url start_url 0 page_mixed eq_refl)
    as (Heq & _ & _ & Hsome).
  split; [rewrite Heq; vm_compute; reflexivity |].
  split; intros (a & joined & Ha & Hjoined)%Hsome.
  - vm_compute in Ha. injection Ha as <-. vm_compute in Hjoined.
    discriminate Hjoined.
  - vm_compute in Ha. discriminate Ha.
Defined.

Lemma X2_types_witness :
  extract_book_data urljoin_checked float_literal start_url attic_item
    = Some attic_book
  /\ (exists title, attic_book !! "Title" = Some (VStr title))
  /\ (exists url, attic_book !! "URL" = Some (VStr url)).
Proof.
  assert (extract_book_data urljoin_checked float_literal start_url attic_item
          = Some attic_book) as H by (vm_compute; reflexivity).
  split; [exact H |].
  destruct (X2_entries_have_their_types urljoin_checked float_literal
              start_url attic_item attic_book H) as (Htitle & Hurl & _).
  split; [exact Htitle | exact Hurl].
Defined.

Lemma X3_title_witness :
  extract_book_data urljoin_checked float_literal start_url two_line_item
    = Some two_line_book
  /\ exists a title pre post,
       title_link two_line_item = Some a
       /\ two_line_book !! "Title" = Some (VStr title)
       /\ get a "title" EmptyString = pre ++ title ++ post
       /\ all_space pre = true /\ all_space post = true.
Proof.
  assert (extract_book_data urljoin_checked float_literal start_url two_line_item
          = Some two_line_book) as H by (vm_compute; reflexivity).
  split; [exact H |].
  destruct (X3_title_is_the_trimmed_attribute urljoin_checked float_literal
              start_url two_line_item two_line_book H)
    as (a & title & pre & post & Ha & Ht & Hattr & Hpre & Hpost & _).
  exists a, title, pre, post.
  split; [exact Ha |]. split; [exact Ht |]. split; [exact Hattr |].
  split; [exact Hpre | exact Hpost].
Defined.

Lemma X4_ended_crawl_witness :
  while_loop urljoin_checked float_literal net_steady start_url 5
    (crawl_start start_url) = Some (Crawl None [attic_book; wake_book] 4)
  /\ exists k, k <= 5
       /\ scrape_all_pages urljoin_checked float_literal net_steady start_url 5
          = Some (concat (page_books_of urljoin_checked float_literal net_steady
                            start_url k (crawl_start start_url)))
       /\ 4 = 2 * k.
Proof.
  assert (while_loop urljoin_checked float_literal net_steady start_url 5
            (crawl_start start_url) = Some (Crawl None [attic_book; wake_book] 4))
    as H by (vm_compute; reflexivity).
  split; [exact H |].
  destruct (X4_ended_crawl_is_the_pages_in_order urljoin_checked float_literal
              net_steady start_url 5 _ H) as (k & Hle & _ & Hbooks & Hreq).
  exists k. split; [exact Hle |]. split; [exact Hbooks | exact Hreq].
Defined.

Lemma X5_sleep_witness :
  while_loop urljoin_checked float_literal net_steady start_url 5
    (crawl_start start_url) = Some (Crawl None [attic_book; wake_book] 4)
  /\ slept urljoin_checked float_literal net_steady start_url 5
       (crawl_start start_url) = 1.
Proof.
  assert (while_loop urljoin_checked float_literal net_steady start_url 5
            (crawl_start start_url) = Some (Crawl None [attic_book; wake_book] 4))
    as H by (vm_compute; reflexivity).
  split; [exact H |].
  destruct (X5_crawl_sleeps_between_pages_only urljoin_checked float_literal
              net_steady start_url 5 _ H) as (k & Hreq & Hslept).
  rewrite Hslept. simpl in Hreq. assert (k = 2) as -> by lia. reflexivity.
Defined.

Lemma X6_origin_witness :
  scrape_all_pages urljoin_checked float_literal net_steady start_url 5
    = Some [attic_book; wake_book]
  /\ wake_book ∈ [attic_book; wake_book]
  /\ (exists j cj url soup article,
        j < 5
        /\ after_passes urljoin_checked float_literal net_steady start_url j
             (crawl_start start_url) = Some cj
        /\ truthy_url (current_url cj) = Some url
        /\ requests cj = 2 * j
        /\ net_steady (2 * j) url = Some soup
        /\ article ∈ find_all "article" (Some "product_pod") soup
        /\ extract_book_data urljoin_checked float_literal start_url article
           = Some wake_book)
  /\ dom wake_book = list_to_set fieldnames.
Proof.
  assert (scrape_all_pages urljoin_checked float_literal net_steady start_url 5
          = Some [attic_book; wake_book]) as H by (vm_compute; reflexivity).
  assert (wake_book ∈ [attic_book; wake_book]) as Hin
    by (apply list_elem_of_In; right; left; reflexivity).
  split; [exact H |]. split; [exact Hin |].
  destruct (X6_crawled_books_come_from_served_articles urljoin_checked
              float_literal id net_steady start_url 5 _ H wake_book Hin)
    as (Horigin & Hdom & _).
  split; [exact Horigin | exact Hdom].
Defined.

Lemma X7_cycle_witness :
  (forall n, net_looping n page_2_url = Some page_2_again)
  /\ get_next_page_url urljoin_checked page_2_again page_2_url = Some page_2_url
  /\ while_loop urljoin_checked float_literal net_looping start_url 1000
       (Crawl (Some page_2_url) [] 0) = None
  /\ after_passes urljoin_checked float_literal net_looping start_url 3
       (Crawl (Some page_2_url) [] 0)
     = Some (Crawl (Some page_2_url) [wake_book; wake_book; wake_book] 6).
Proof.
  assert (page_2_url <> EmptyString) as Hne by discriminate.
  pose proof (X7_next_link_to_itself_never_ends urljoin_checked float_literal
                net_looping start_url page_2_url page_2_again
                (Crawl (Some page_2_url) [] 0)
                (fun n => eq_refl) eq_refl Hne eq_refl)
    as [Hnever Hpasses].
  split; [intros n; reflexivity |]. split; [reflexivity |].
  split; [exact (Hnever 1000) |].
  rewrite (Hpasses 3). vm_compute. reflexivity.
Defined.

Lemma X8_steady_witness :
  steady net_half
  /\ after_passes urljoin_checked float_literal net_half start_url 1
       (crawl_start start_url) = Some (Crawl (Some page_2_url) [attic_book] 2)
  /\ net_half 2 page_2_url = None
  /\ scrape_all_pages urljoin_checked float_literal net_half start_url 2
     = Some [attic_book].
Proof.
  assert (steady net_half) as Hsteady by (intros n m url; reflexivity).
  split; [exact Hsteady |]. split; [vm_compute; reflexivity |].
  split; [reflexivity |].
  exact (proj1 (X8_steady_network_halts_at_failed_fetch urljoin_checked
                  float_literal net_half start_url 1
                  (Crawl (Some page_2_url) [attic_book] 2) page_2_url
                  Hsteady eq_refl eq_refl eq_refl 2 (le_n 2))).
Defined.

Lemma X9_key_fault_witness :
  any_file "books_data.csv" = true
  /\ foreign_book !! "UPC" = Some (VStr "a897fe39b1053632")
  /\ save_to_csv id any_file disk_ok cut_at_20
       [attic_book; foreign_book; wake_book] "books_data.csv"
     = (Return false,
        Some ("Title,Price,Rating,Availability,URL" ++ CRLF ++
              join EmptyString (List.map (data_row id) [attic_book]))).
Proof.
  split; [reflexivity |]. split; [vm_compute; reflexivity |].
  apply (X9_key_fault_leaves_the_rows_written_so_far id any_file disk_ok
           cut_at_20 [attic_book] foreign_book [wake_book] "books_data.csv"
           eq_refl).
  - intros b [<- | []]. vm_compute. intros x Hx. exact Hx.
  - intros i _. reflexivity.
  - intros Hsub.
    assert ("UPC" ∈ dom foreign_book) as Hin
      by (apply elem_of_dom; eexists; vm_compute; reflexivity).
    apply Hsub in Hin. vm_compute in Hin. set_solver.
Defined.

Lemma X10_line_count_witness :
  exists content : string,
    save_to_csv id any_file disk_ok cut_at_20 [two_line_book] "books_data.csv"
      = (Return true, Some content)
    /\ count_lines content = 3.
Proof.
  eexists. split; [vm_compute; reflexivity |].
  exact (X10_lines_are_rows_plus_line_feeds_of_cells id any_file disk_ok
           cut_at_20 [two_line_book] "books_data.csv" _ eq_refl).
Defined.

Lemma X12_run_witness :
  exists r : run_result string,
    run urljoin_checked float_literal id net_steady any_file disk_ok
      cut_at_20 start_url false 0 = Some r
    /\ run_returned r = Return true
    /\ run_books_data r = [attic_book]
    /\ run_requests r = 1.
Proof.
  assert (exists r : run_result string,
            run urljoin_checked float_literal id net_steady any_file disk_ok
              cut_at_20 start_url false 0 = Some r) as [r H]
    by (eexists; vm_compute; reflexivity).
  exists r. split; [exact H |].
  destruct (X12_run_succeeds_exactly_when_books_are_saved urljoin_checked
              float_literal id net_steady any_file disk_ok cut_at_20
              start_url false 0 r H) as (_ & Htrue & _ & Hbooks & Hreq).
  assert (run_books_data r = [attic_book]) as Hb
    by (rewrite Hbooks; vm_compute; reflexivity).
  split; [| split; [exact Hb | exact Hreq]].
  apply Htrue. rewrite Hb. split; [discriminate |]. split; [reflexivity |].
  intros i _. reflexivity.
Defined.

Lemma X13_one_page_witness :
  steady net_steady
  /\ net_steady 0 page_2_url = Some page_2
  /\ find "li" (Some "next") page_2 = None
  /\ exists r_all r_one : run_result string,
       run urljoin_checked float_literal id net_steady any_file disk_ok
         cut_at_20 page_2_url true 1 = Some r_all
       /\ run urljoin_checked float_literal id net_steady any_file disk_ok
            cut_at_20 page_2_url false 0 = Some r_one
       /\ run_books_data r_all = run_books_data r_one
       /\ run_file r_all = run_file r_one
       /\ run_requests r_all = 2
       /\ run_requests r_one = 1.
Proof.
  assert (steady net_steady) as Hsteady by (intros n m url; reflexivity).
  assert (page_2_url <> EmptyString) as Hne by discriminate.
  split; [exact Hsteady |]. split; [reflexivity |]. split; [reflexivity |].
  destruct (X13_one_page_site_both_modes_agree urljoin_checked float_literal id
              net_steady any_file disk_ok cut_at_20 page_2_url page_2 0
              Hsteady Hne eq_refl eq_refl)
    as (r_all & r_one & Hall & Hone & Hbooks & _ & Hfile & Hra & Hro).
  exists r_all, r_one. repeat split; assumption.
Defined.
